(** * PokeMCP: the tool handlers of [server.py], embedded and verified

    The server exposes seven tool handlers that translate a tool call
    into one or two GET requests against the PokeAPI and reshape the
    JSON answer into a small dictionary.  This development embeds the
    handlers of [server.py] as Rocq functions and proves the properties
    the specification states about them.

    Modelling conventions.
    - A Python [str] is a [string]; an [ascii] stands for the code point
      of the same number, so the strings covered are those over
      U+0000..U+00FF.
    - A value produced by [response.json()] is a [pyval]; JSON numbers are
      integers (the fields the handlers read are integers upstream).
    - A Python [dict] is an association list in insertion order; a key is
      looked up at its first entry.
    - The upstream API is a function from the requests already issued
      and the requested URL to what the HTTP client observes.
    - Calls to [logger] do not influence any returned value and are left
      out. *)

From Stdlib Require Import String Ascii ZArith List Bool Lia.
From Stdlib Require Import DecimalString DecimalPos DecimalZ.
Import ListNotations.

Set Warnings "-register-all".

Open Scope string_scope.
Open Scope Z_scope.

(* ================================================================= *)
(** ** Python values *)

Module Py.

(** Hashable values, the keys of a [dict]. *)
Inductive pykey : Type :=
| KNone
| KBool (b : bool)
| KInt (z : Z)
| KStr (s : string).

Inductive pyval : Type :=
| PNone
| PBool (b : bool)
| PInt (z : Z)
| PStr (s : string)
| PList (l : list pyval)
| PDict (d : list (pykey * pyval)).

Definition pydict : Type := list (pykey * pyval).

(** The exceptions the handlers can meet while they take a response
    apart.  Each carries what [str(e)] needs. *)
Inductive pyexc : Type :=
| AttributeError (type_name attr : string)
| NotSubscriptable (type_name : string)
| NotIterable (type_name : string)
| BadIndex (type_name : string)
| KeyError (key : string)
| Unhashable (type_name : string).

(** The result of evaluating an expression: a value or a raised
    exception. *)
Inductive exn (A : Type) : Type :=
| Ok (a : A)
| Raise (e : pyexc).
Arguments Ok {A} a.
Arguments Raise {A} e.

Definition bind {A B : Type} (m : exn A) (k : A -> exn B) : exn B :=
  match m with
  | Ok a => k a
  | Raise e => Raise e
  end.

Notation "x <- m ;; k" := (bind m (fun x => k))
  (at level 61, m at next level, right associativity).

(** [type(v).__name__] *)
Definition type_name (v : pyval) : string :=
  match v with
  | PNone => "NoneType"
  | PBool _ => "bool"
  | PInt _ => "int"
  | PStr _ => "str"
  | PList _ => "list"
  | PDict _ => "dict"
  end.

Definition of_key (k : pykey) : pyval :=
  match k with
  | KNone => PNone
  | KBool b => PBool b
  | KInt z => PInt z
  | KStr s => PStr s
  end.

(** [hash(v)] succeeds on everything but lists and dicts. *)
Definition to_key (v : pyval) : exn pykey :=
  match v with
  | PNone => Ok KNone
  | PBool b => Ok (KBool b)
  | PInt z => Ok (KInt z)
  | PStr s => Ok (KStr s)
  | PList _ => Raise (Unhashable "list")
  | PDict _ => Raise (Unhashable "dict")
  end.

(** Equality of keys: [True == 1] and [False == 0]. *)
Definition key_num (k : pykey) : option Z :=
  match k with
  | KBool true => Some 1
  | KBool false => Some 0
  | KInt z => Some z
  | _ => None
  end.

Definition key_eqb (a b : pykey) : bool :=
  match a, b with
  | KNone, KNone => true
  | KStr s, KStr t => String.eqb s t
  | _, _ =>
      match key_num a, key_num b with
      | Some x, Some y => Z.eqb x y
      | _, _ => false
      end
  end.

(** [bool(v)] *)
Definition truthy (v : pyval) : bool :=
  match v with
  | PNone => false
  | PBool b => b
  | PInt z => negb (Z.eqb z 0)
  | PStr s => negb (String.eqb s "")
  | PList l => match l with [] => false | _ => true end
  | PDict d => match d with [] => false | _ => true end
  end.

(** Dictionary lookup under a [str] key. *)
Fixpoint lookup (d : pydict) (k : string) : option pyval :=
  match d with
  | [] => None
  | (k', v) :: d' => if key_eqb k' (KStr k) then Some v else lookup d' k
  end.

(** [d[key] = v]: an existing key keeps its place. *)
Fixpoint dict_set (d : pydict) (k : pykey) (v : pyval) : pydict :=
  match d with
  | [] => [(k, v)]
  | (k', v') :: d' =>
      if key_eqb k' k then (k', v) :: d' else (k', v') :: dict_set d' k v
  end.

(** [v.get(key, default)]; only a [dict] has the method. *)
Definition get_default (v : pyval) (k : string) (default : pyval) : exn pyval :=
  match v with
  | PDict d => Ok (match lookup d k with Some x => x | None => default end)
  | _ => Raise (AttributeError (type_name v) "get")
  end.

(** [v.get(key)] *)
Definition get (v : pyval) (k : string) : exn pyval :=
  get_default v k PNone.

(** [v[key]] for a [str] key. *)
Definition subscript (v : pyval) (k : string) : exn pyval :=
  match v with
  | PDict d =>
      match lookup d k with
      | Some x => Ok x
      | None => Raise (KeyError k)
      end
  | PList _ => Raise (BadIndex "list")
  | PStr _ => Raise (BadIndex "string")
  | _ => Raise (NotSubscriptable (type_name v))
  end.

Fixpoint chars (s : string) : list pyval :=
  match s with
  | EmptyString => []
  | String c s' => PStr (String c EmptyString) :: chars s'
  end.

(** [iter(v)]: the elements of a list, the keys of a dict, the
    characters of a string. *)
Definition iterate (v : pyval) : exn (list pyval) :=
  match v with
  | PList l => Ok l
  | PDict d => Ok (map (fun kv => of_key (fst kv)) d)
  | PStr s => Ok (chars s)
  | _ => Raise (NotIterable (type_name v))
  end.

(** [v == s] for a [str] literal [s]. *)
Definition eq_str (v : pyval) (s : string) : bool :=
  match v with
  | PStr t => String.eqb t s
  | _ => false
  end.

(** [[f(t) for t in l]] *)
Fixpoint list_comp (f : pyval -> exn pyval) (l : list pyval) : exn (list pyval) :=
  match l with
  | [] => Ok []
  | t :: l' =>
      x <- f t ;;
      xs <- list_comp f l' ;;
      Ok (x :: xs)
  end.

(** [{fk(s): fv(s) for s in l}], filling [acc]: the key expression is
    evaluated before the value expression, then the entry is stored. *)
Fixpoint dict_comp (fk fv : pyval -> exn pyval) (l : list pyval) (acc : pydict)
  : exn pydict :=
  match l with
  | [] => Ok acc
  | s :: l' =>
      k <- fk s ;;
      v <- fv s ;;
      k' <- to_key k ;;
      dict_comp fk fv l' (dict_set acc k' v)
  end.

(** *** Strings *)

(** [str.lower] on U+0000..U+00FF: the letters A-Z and the capital
    letters U+00C0..U+00DE, the multiplication sign U+00D7 apart, move
    up by 32. *)
Definition lower_char (c : ascii) : ascii :=
  let n := nat_of_ascii c in
  if ((65 <=? n) && (n <=? 90))%nat
     || ((192 <=? n) && (n <=? 222) && negb (n =? 215))%nat
  then ascii_of_nat (n + 32)
  else c.

Fixpoint lower (s : string) : string :=
  match s with
  | EmptyString => EmptyString
  | String c s' => String (lower_char c) (lower s')
  end.

(** [s.replace(old, new)].  [skip] counts the characters of a match
    that are still to be dropped, so that matches do not overlap. *)
Fixpoint replace_from (old new : string) (skip : nat) (s : string) : string :=
  match s with
  | EmptyString => EmptyString
  | String c s' =>
      match skip with
      | S n => replace_from old new n s'
      | O =>
          if String.prefix old s
          then new ++ replace_from old new (Nat.pred (String.length old)) s'
          else String c (replace_from old new O s')
      end
  end.

(** With an empty [old], Python puts [new] before every character and
    at the end. *)
Fixpoint intersperse (new s : string) : string :=
  match s with
  | EmptyString => new
  | String c s' => new ++ String c (intersperse new s')
  end.

Definition replace (old new s : string) : string :=
  match old with
  | EmptyString => intersperse new s
  | _ => replace_from old new O s
  end.

(** [v.replace(old, new)]; only a [str] has the method here. *)
Definition replace_method (v : pyval) (old new : string) : exn string :=
  match v with
  | PStr s => Ok (replace old new s)
  | _ => Raise (AttributeError (type_name v) "replace")
  end.

(** [str(n)] for an [int]. *)
Definition str_of_int (n : Z) : string :=
  NilZero.string_of_int (Z.to_int n).

Definition quote : string := String (ascii_of_nat 39) EmptyString.

(** [str(e)], with the interpreter's wording. *)
Definition str_of_exc (e : pyexc) : string :=
  match e with
  | AttributeError t a =>
      quote ++ t ++ quote ++ " object has no attribute " ++ quote ++ a ++ quote
  | NotSubscriptable t => quote ++ t ++ quote ++ " object is not subscriptable"
  | NotIterable t => quote ++ t ++ quote ++ " object is not iterable"
  | BadIndex "list" => "list indices must be integers or slices, not str"
  | BadIndex t => t ++ " indices must be integers, not " ++ quote ++ "str" ++ quote
  | KeyError k => quote ++ k ++ quote
  | Unhashable t => "unhashable type: " ++ quote ++ t ++ quote
  end.

End Py.

Import Py.

(* ================================================================= *)
(** ** The HTTP client as the handlers see it *)

(** What [response.json()] does: it yields the parsed body or raises
    (a body that is not JSON); [cause] is [str(e)]. *)
Inductive json_result : Type :=
| JsonValue (v : pyval)
| JsonFailure (cause : string).

(** What [client.get(url)] does: it yields a response, raises an
    [httpx.RequestError] (DNS, refused connection, timeout) or raises
    another [Exception]; [cause] is [str(e)]. *)
Inductive http_result : Type :=
| Response (status_code : Z) (text : string) (json : json_result)
| RequestError (cause : string)
| OtherError (cause : string).

(** The upstream API: the URLs requested so far, oldest first, and the
    URL requested now decide what the client observes. *)
Definition upstream : Type := list string -> string -> http_result.

(** [response.raise_for_status()] (line 44): httpx raises
    [httpx.HTTPStatusError] unless the status is a success status,
    200..299.  The 4XX and 5XX statuses the comment names are among those
    that raise; so is a 3XX status, since [httpx.AsyncClient()] does
    not follow redirects. *)
Definition raise_for_status (status_code : Z) : bool :=
  negb ((200 <=? status_code) && (status_code <=? 299)).

(** A computation that issues requests: it extends the list of URLs
    requested and returns a value or raises. *)
Definition M (A : Type) : Type := list string -> exn A * list string.

Definition ret {A : Type} (a : A) : M A := fun tr => (Ok a, tr).

Definition lift {A : Type} (e : exn A) : M A := fun tr => (e, tr).

Definition mbind {A B : Type} (m : M A) (k : A -> M B) : M B :=
  fun tr =>
    match m tr with
    | (Ok a, tr') => k a tr'
    | (Raise e, tr') => (Raise e, tr')
    end.

Notation "x <~ m ;; k" := (mbind m (fun x => k))
  (at level 61, m at next level, right associativity).

(* ================================================================= *)
(** ** server.py *)

Definition POKEAPI_BASE_URL : string := "https://pokeapi.co/api/v2".

(** The word with its e-acute, U+00E9, as one code point. *)
Definition Pokemon : string := "Pok" ++ String (ascii_of_nat 233) "mon".

(** [{"error": message, "details": details}] *)
Definition error_details (message details : string) : pyval :=
  PDict [(KStr "error", PStr message); (KStr "details", PStr details)].

(** [{"error": message, "name": name}] *)
Definition error_name (message : string) (name : pyval) : pyval :=
  PDict [(KStr "error", PStr message); (KStr "name", name)].

(** [try: body  except Exception as e: return {"error": message,
    "details": str(e)}] *)
Definition try_except (body : exn pyval) (message : string) : pyval :=
  match body with
  | Ok v => v
  | Raise e => error_details message (str_of_exc e)
  end.

Section Handlers.

Variable api : upstream.

(** Lines 31-54. *)
Definition fetch_from_pokeapi (endpoint : string) : M pyval :=
  fun tr =>
    let url := POKEAPI_BASE_URL ++ endpoint in
    (Ok
       match api tr url with
       | Response status_code text json =>
           if raise_for_status status_code
           then error_details
                  ("API request failed with status " ++ str_of_int status_code)
                  text
           else match json with
                | JsonValue v => v
                | JsonFailure cause =>
                    error_details "An unexpected error occurred" cause
                end
       | RequestError cause => error_details "API request error" cause
       | OtherError cause => error_details "An unexpected error occurred" cause
       end,
     app tr [url]).

(** [[t['type']['name'] for t in data.get('types', [])]], lines 86
    and 130. *)
Definition type_names (data : pyval) : exn pyval :=
  ts <- get_default data "types" (PList []) ;;
  l <- iterate ts ;;
  names <- list_comp (fun t => ty <- subscript t "type" ;; subscript ty "name") l ;;
  Ok (PList names).

(** [{s['stat']['name']: s['base_stat'] for s in data.get('stats', [])}],
    line 87. *)
Definition base_stats (data : pyval) : exn pyval :=
  ss <- get_default data "stats" (PList []) ;;
  l <- iterate ss ;;
  d <- dict_comp (fun s => st <- subscript s "stat" ;; subscript st "name")
                 (fun s => subscript s "base_stat") l [] ;;
  Ok (PDict d).

(** Line 88. *)
Definition official_artwork (data : pyval) : exn pyval :=
  sprites <- get_default data "sprites" (PDict []) ;;
  other <- get_default sprites "other" (PDict []) ;;
  artwork <- get_default other "official-artwork" (PDict []) ;;
  get artwork "front_default".

(** Line 90. *)
Definition front_default (data : pyval) : exn pyval :=
  sprites <- get_default data "sprites" (PDict []) ;;
  get sprites "front_default".

(** Lines 86-100, the body of the [try]. *)
Definition details_body (data : pyval) : exn pyval :=
  types <- type_names data ;;
  stats <- base_stats data ;;
  sprite_url <- official_artwork data ;;
  sprite_url <- (if negb (truthy sprite_url) then front_default data
                 else Ok sprite_url) ;;
  id <- get data "id" ;;
  name <- get data "name" ;;
  height <- get data "height" ;;
  weight <- get data "weight" ;;
  Ok (PDict [(KStr "id", id); (KStr "name", name); (KStr "height", height);
             (KStr "weight", weight); (KStr "types", types);
             (KStr "stats", stats); (KStr "sprite_url", sprite_url)]).

(** Lines 56-103. *)
Definition get_pokemon_details (pokemon_name_or_id : string) : M pyval :=
  let processed_input := lower pokemon_name_or_id in
  data <~ fetch_from_pokeapi ("/pokemon/" ++ processed_input ++ "/") ;;
  err <~ lift (get data "error") ;;
  if truthy err then ret data
  else ret (try_except (details_body data)
              ("Failed to process " ++ Pokemon ++ " data")).

(** Lines 130-131, the body of the [try]. *)
Definition types_body (data : pyval) : exn pyval :=
  types <- type_names data ;;
  name <- get data "name" ;;
  id <- get data "id" ;;
  Ok (PDict [(KStr "name", name); (KStr "id", id); (KStr "types", types)]).

(** Lines 105-134. *)
Definition get_pokemon_types (pokemon_name_or_id : string) : M pyval :=
  let processed_input := lower pokemon_name_or_id in
  data <~ fetch_from_pokeapi ("/pokemon/" ++ processed_input ++ "/") ;;
  err <~ lift (get data "error") ;;
  if truthy err then ret data
  else ret (try_except (types_body data)
              ("Failed to process " ++ Pokemon ++ " types")).

(** Lines 136-161; nothing here is inside a [try]. *)
Definition get_species_data (pokemon_name_or_id : string) : M pyval :=
  let processed_input := lower pokemon_name_or_id in
  pokemon_data <~ fetch_from_pokeapi ("/pokemon/" ++ processed_input ++ "/") ;;
  err <~ lift (get pokemon_data "error") ;;
  if truthy err then ret pokemon_data
  else
    species_url <~ lift (species <- get_default pokemon_data "species" (PDict []) ;;
                         get species "url") ;;
    if negb (truthy species_url)
    then name <~ lift (get pokemon_data "name") ;;
         ret (error_name "Species URL not found" name)
    else
      relative_species_endpoint <~
        lift (replace_method species_url POKEAPI_BASE_URL "") ;;
      species_data <~ fetch_from_pokeapi relative_species_endpoint ;;
      ret species_data.

(** Lines 187-190 and 219-222, the body of the [try]; [field] is
    ["color"] or ["shape"]. *)
Definition attribute_body (field message : string) (data : pyval)
    (pokemon_name_or_id : string) : exn pyval :=
  attribute <- get_default data field (PDict []) ;;
  attribute_name <- get attribute "name" ;;
  if negb (truthy attribute_name)
  then name <- get data "name" ;;
       Ok (error_name message name)
  else name <- get_default data "name" (PStr pokemon_name_or_id) ;;
       id <- get data "id" ;;
       Ok (PDict [(KStr "name", name); (KStr "id", id);
                  (KStr field, attribute_name)]).

(** Lines 163-193. *)
Definition get_pokemon_color (pokemon_name_or_id : string) : M pyval :=
  data <~ get_species_data pokemon_name_or_id ;;
  err <~ lift (get data "error") ;;
  if truthy err then ret data
  else ret (try_except
              (attribute_body "color" "Color not found in species data"
                 data pokemon_name_or_id)
              ("Failed to process " ++ Pokemon ++ " color")).

(** Lines 195-225. *)
Definition get_pokemon_shape (pokemon_name_or_id : string) : M pyval :=
  data <~ get_species_data pokemon_name_or_id ;;
  err <~ lift (get data "error") ;;
  if truthy err then ret data
  else ret (try_except
              (attribute_body "shape" "Shape not found in species data"
                 data pokemon_name_or_id)
              ("Failed to process " ++ Pokemon ++ " shape")).

(** [[p['name'] for p in data.get('results', [])]], lines 252 and 327. *)
Definition result_names (data : pyval) : exn pyval :=
  rs <- get_default data "results" (PList []) ;;
  l <- iterate rs ;;
  names <- list_comp (fun p => subscript p "name") l ;;
  Ok (PList names).

(** Lines 252-253 and 327-328, the body of the [try]; [field] is
    ["pokemon_names"] or ["item_names"]. *)
Definition listing_body (field : string) (data : pyval) : exn pyval :=
  names <- result_names data ;;
  count <- get data "count" ;;
  Ok (PDict [(KStr "count", count); (KStr field, names)]).

(** An argument with a default value: [None] when the caller leaves it
    out. *)
Definition arg_or (a : option Z) (default : Z) : Z :=
  match a with
  | Some z => z
  | None => default
  end.

(** Lines 227-256; [limit: int = 2000, offset: int = 0]. *)
Definition list_all_pokemon_names (limit offset : option Z) : M pyval :=
  let limit := arg_or limit 2000 in
  let offset := arg_or offset 0 in
  data <~ fetch_from_pokeapi
            ("/pokemon?limit=" ++ str_of_int limit ++ "&offset="
               ++ str_of_int offset) ;;
  err <~ lift (get data "error") ;;
  if truthy err then ret data
  else ret (try_except (listing_body "pokemon_names" data)
              ("Failed to process " ++ Pokemon ++ " list")).

(** Lines 287-290: the loop leaves at the first English entry. *)
Fixpoint effect_loop (entries : list pyval) (short_effect_english : pyval)
  : exn pyval :=
  match entries with
  | [] => Ok short_effect_english
  | entry :: rest =>
      language <- get_default entry "language" (PDict []) ;;
      name <- get language "name" ;;
      if eq_str name "en"
      then get_default entry "short_effect" (PStr "N/A")
      else effect_loop rest short_effect_english
  end.

(** Lines 286-301, the body of the [try]. *)
Definition item_body (data : pyval) : exn pyval :=
  entries <- get_default data "effect_entries" (PList []) ;;
  l <- iterate entries ;;
  short_effect_english <- effect_loop l (PStr "N/A") ;;
  sprites <- get_default data "sprites" (PDict []) ;;
  sprite_url <- get sprites "default" ;;
  id <- get data "id" ;;
  name <- get data "name" ;;
  cost <- get_default data "cost" (PInt 0) ;;
  category <- get_default data "category" (PDict []) ;;
  category <- get category "name" ;;
  Ok (PDict [(KStr "id", id); (KStr "name", name); (KStr "cost", cost);
             (KStr "category", category);
             (KStr "short_effect", short_effect_english);
             (KStr "sprite_url", sprite_url)]).

(** Lines 258-304. *)
Definition get_item_details (item_name_or_id : string) : M pyval :=
  let processed_input := lower item_name_or_id in
  let processed_input := replace " " "-" processed_input in
  data <~ fetch_from_pokeapi ("/item/" ++ processed_input ++ "/") ;;
  err <~ lift (get data "error") ;;
  if truthy err then ret data
  else ret (try_except (item_body data) "Failed to process item data").

(** Lines 306-331; [limit: int = 100, offset: int = 0]. *)
Definition list_all_items (limit offset : option Z) : M pyval :=
  let limit := arg_or limit 100 in
  let offset := arg_or offset 0 in
  data <~ fetch_from_pokeapi
            ("/item?limit=" ++ str_of_int limit ++ "&offset="
               ++ str_of_int offset) ;;
  err <~ lift (get data "error") ;;
  if truthy err then ret data
  else ret (try_except (listing_body "item_names" data)
              "Failed to process item list").

End Handlers.

(* ================================================================= *)
(** ** Vocabulary of the specification *)

(** The seven tools with their arguments. *)
Inductive tool : Type :=
| Details (pokemon_name_or_id : string)
| Types (pokemon_name_or_id : string)
| Color (pokemon_name_or_id : string)
| Shape (pokemon_name_or_id : string)
| Names (limit offset : option Z)
| Item (item_name_or_id : string)
| Items (limit offset : option Z).

Definition run (api : upstream) (t : tool) : M pyval :=
  match t with
  | Details x => get_pokemon_details api x
  | Types x => get_pokemon_types api x
  | Color x => get_pokemon_color api x
  | Shape x => get_pokemon_shape api x
  | Names l o => list_all_pokemon_names api l o
  | Item x => get_item_details api x
  | Items l o => list_all_items api l o
  end.

(** The fields of each tool's success record, as its docstring and its
    [return] list them. *)
Definition success_fields (t : tool) : list string :=
  match t with
  | Details _ =>
      ["id"; "name"; "height"; "weight"; "types"; "stats"; "sprite_url"]
  | Types _ => ["name"; "id"; "types"]
  | Color _ => ["name"; "id"; "color"]
  | Shape _ => ["name"; "id"; "shape"]
  | Names _ _ => ["count"; "pokemon_names"]
  | Item _ =>
      ["id"; "name"; "cost"; "category"; "short_effect"; "sprite_url"]
  | Items _ _ => ["count"; "item_names"]
  end.

(** The value stored under [k], when [v] is a dict that has the key. *)
Definition field (v : pyval) (k : string) : option pyval :=
  match v with
  | PDict d => lookup d k
  | _ => None
  end.

(** A fully populated success record: a dict with exactly the fields
    of the tool, in the order of its [return]. *)
Definition success_record (t : tool) (v : pyval) : Prop :=
  exists d, v = PDict d /\ map fst d = map KStr (success_fields t).

(** An error record: a dict whose [error] entry is a message. *)
Definition error_record (v : pyval) : Prop :=
  exists message, field v "error" = Some (PStr message).

(** A record that mixes an [error] entry with a field of the tool's
    success record. *)
Definition mixed_record (t : tool) (v : pyval) : Prop :=
  field v "error" <> None /\
  exists k, In k (success_fields t) /\ field v k <> None.

(** [sub in s] *)
Fixpoint contains (sub s : string) : bool :=
  String.prefix sub s
  || match s with
     | EmptyString => false
     | String _ s' => contains sub s'
     end.

(** The handlers that start from the record of one creature. *)
Definition creature_handlers (api : upstream) : list (string -> M pyval) :=
  [get_pokemon_details api; get_pokemon_types api;
   get_pokemon_color api; get_pokemon_shape api].

(** The URL of the record of a creature. *)
Definition pokemon_url (pokemon_name_or_id : string) : string :=
  POKEAPI_BASE_URL ++ "/pokemon/" ++ lower pokemon_name_or_id ++ "/".

(** [d.get(k)] on a dict. *)
Definition entry (d : pydict) (k : string) : pyval :=
  match lookup d k with
  | Some x => x
  | None => PNone
  end.

(** The record [get_pokemon_details] returns on success, for the data
    [d], its type names, its stats and the sprite chosen. *)
Definition details_record (d : pydict) (types stats sprite_url : pyval)
  : pyval :=
  PDict [(KStr "id", entry d "id"); (KStr "name", entry d "name");
         (KStr "height", entry d "height"); (KStr "weight", entry d "weight");
         (KStr "types", types); (KStr "stats", stats);
         (KStr "sprite_url", sprite_url)].

(** [d.get(k, {}).get(k')] when the entry under [k] is absent or a
    dict. *)
Definition nested (d : pydict) (k k' : string) : pyval :=
  match lookup d k with
  | Some (PDict d') => entry d' k'
  | _ => PNone
  end.

(** The entry under [k] is absent or a dict, so that
    [d.get(k, {}).get(...)] does not raise. *)
Definition dict_or_absent (d : pydict) (k : string) : bool :=
  match lookup d k with
  | None => true
  | Some (PDict _) => true
  | Some _ => false
  end.

(** An element of [effect_entries] the loop can examine: a dict whose
    [language] is absent or a dict. *)
Definition entry_ok (e : pyval) : bool :=
  match e with
  | PDict d => dict_or_absent d "language"
  | _ => false
  end.

(** [language.name == "en"] *)
Definition is_english (e : pyval) : bool :=
  match field e "language" with
  | Some language =>
      match field language "name" with
      | Some name => eq_str name "en"
      | None => false
      end
  | None => false
  end.

(** The short effect as the specification words it: that of the first
    element of [effect_entries] whose [language.name] is "en", and
    "N/A" when there is none (or when that element has no
    [short_effect]). *)
Definition english_short_effect (entries : list pyval) : pyval :=
  match find is_english entries with
  | Some e =>
      match field e "short_effect" with
      | Some x => x
      | None => PStr "N/A"
      end
  | None => PStr "N/A"
  end.

(** The URL of the record of an item. *)
Definition item_url (item_name_or_id : string) : string :=
  POKEAPI_BASE_URL ++ "/item/" ++ replace " " "-" (lower item_name_or_id)
    ++ "/".

(** The record [get_item_details] returns on success. *)
Definition item_record (d : pydict) (short_effect : pyval) : pyval :=
  PDict [(KStr "id", entry d "id"); (KStr "name", entry d "name");
         (KStr "cost", match lookup d "cost" with
                       | Some c => c
                       | None => PInt 0
                       end);
         (KStr "category", nested d "category" "name");
         (KStr "short_effect", short_effect);
         (KStr "sprite_url", nested d "sprites" "default")].

(** The URL of a page of a listing; [resource] is ["pokemon"] or
    ["item"]. *)
Definition listing_url (resource : string) (limit offset : Z) : string :=
  POKEAPI_BASE_URL ++ "/" ++ resource ++ "?limit=" ++ str_of_int limit
    ++ "&offset=" ++ str_of_int offset.

(** The record a listing handler returns on success. *)
Definition listing_record (names_field : string) (count : pyval)
    (names : list pyval) : pyval :=
  PDict [(KStr "count", count); (KStr names_field, PList names)].

(** Reading a decimal numeral back, the inverse of [str_of_int]. *)
Definition int_of_str (s : string) : option Z :=
  option_map Z.of_int (NilZero.int_of_string s).

(** An upstream that serves the given records under the given URLs and
    answers 404 everywhere else. *)
Definition serve (pages : list (string * pyval)) : upstream :=
  fun _ url =>
    match find (fun page => String.eqb (fst page) url) pages with
    | Some page => Response 200 "" (JsonValue (snd page))
    | None => Response 404 "Not Found" (JsonFailure "not JSON")
    end.

(** The path segment [get_item_details] builds from its argument. *)
Definition normalize_item (item_name_or_id : string) : string :=
  replace " " "-" (lower item_name_or_id).

(** What [replace(" ", "-")] does to one character. *)
Definition hyphenate (c : ascii) : ascii :=
  if Ascii.eqb c " " then "-"%char else c.

(** The handlers that go through the species resolver. *)
Definition species_tool (t : tool) : bool :=
  match t with
  | Color _ | Shape _ => true
  | _ => false
  end.

(** A JSON body the upstream served: a response that passes
    [raise_for_status] carried it. *)
Definition served (api : upstream) (v : pyval) : Prop :=
  exists tr url code text,
    api tr url = Response code text (JsonValue v) /\
    raise_for_status code = false.

(** The messages of the records that carry a [name] in place of
    [details]. *)
Definition not_found_messages : list string :=
  ["Species URL not found"; "Color not found in species data";
   "Shape not found in species data"].

(** The values a handler can return. *)
Inductive returned (api : upstream) (t : tool) : pyval -> Prop :=
| returned_success v :
    success_record t v -> returned api t v
| returned_failure message details :
    truthy (PStr message) = true ->
    returned api t (error_details message details)
| returned_not_found message name :
    species_tool t = true -> In message not_found_messages ->
    returned api t (error_name message name)
| returned_upstream d :
    served api (PDict d) -> truthy (entry d "error") = true ->
    returned api t (PDict d).

(** A creature record the species resolver can read: [species] is
    absent or a dict whose [url] is absent, falsy or a string. *)
Definition species_ref_ok (d : pydict) : bool :=
  match lookup d "species" with
  | None => true
  | Some (PDict species) =>
      match lookup species "url" with
      | None => true
      | Some (PStr _) => true
      | Some u => negb (truthy u)
      end
  | Some _ => false
  end.

(** A body the handler of [t] can take apart far enough to answer: a
    JSON object, with a readable species reference for color and
    shape. *)
Definition body_ok (t : tool) (v : pyval) : bool :=
  match v with
  | PDict d => if species_tool t then species_ref_ok d else true
  | _ => false
  end.

Definition well_formed_upstream (t : tool) (api : upstream) : Prop :=
  forall v, served api v -> body_ok t v = true.

(** The skeleton the seven handlers share: get the data, return it when
    it has a truthy [error], else run the body inside [try]. *)
Definition guarded (source : M pyval) (body : pyval -> exn pyval)
    (failure : string) : M pyval :=
  data <~ source ;;
  err <~ lift (get data "error") ;;
  if truthy err then ret data else ret (try_except (body data) failure).

Definition source_of (api : upstream) (t : tool) : M pyval :=
  match t with
  | Details x | Types x =>
      fetch_from_pokeapi api ("/pokemon/" ++ lower x ++ "/")
  | Color x | Shape x => get_species_data api x
  | Names l o =>
      fetch_from_pokeapi api
        ("/pokemon?limit=" ++ str_of_int (arg_or l 2000) ++ "&offset="
           ++ str_of_int (arg_or o 0))
  | Item x =>
      fetch_from_pokeapi api ("/item/" ++ replace " " "-" (lower x) ++ "/")
  | Items l o =>
      fetch_from_pokeapi api
        ("/item?limit=" ++ str_of_int (arg_or l 100) ++ "&offset="
           ++ str_of_int (arg_or o 0))
  end.

Definition body_of (t : tool) (data : pyval) : exn pyval :=
  match t with
  | Details _ => details_body data
  | Types _ => types_body data
  | Color x =>
      attribute_body "color" "Color not found in species data" data x
  | Shape x =>
      attribute_body "shape" "Shape not found in species data" data x
  | Names _ _ => listing_body "pokemon_names" data
  | Item _ => item_body data
  | Items _ _ => listing_body "item_names" data
  end.

Definition failure_of (t : tool) : string :=
  match t with
  | Details _ => "Failed to process " ++ Pokemon ++ " data"
  | Types _ => "Failed to process " ++ Pokemon ++ " types"
  | Color _ => "Failed to process " ++ Pokemon ++ " color"
  | Shape _ => "Failed to process " ++ Pokemon ++ " shape"
  | Names _ _ => "Failed to process " ++ Pokemon ++ " list"
  | Item _ => "Failed to process item data"
  | Items _ _ => "Failed to process item list"
  end.

(** What the fetch helper or the species resolver hands to a handler. *)
Definition sourced (api : upstream) (t : tool) (v : pyval) : Prop :=
  (exists message details,
      v = error_details message details /\ truthy (PStr message) = true) \/
  served api v \/
  (species_tool t = true /\
   exists name, v = error_name "Species URL not found" name).

(** Every body ends in its [return]; take the [bind]s apart. *)
Ltac body_cases H :=
  unfold bind in H;
  repeat match type of H with
         | context [match ?m with Ok _ => _ | Raise _ => _ end] =>
             destruct m; try discriminate H
         end.

(** The path of the first request of each tool. *)
Definition first_endpoint (t : tool) : string :=
  match t with
  | Details x | Types x | Color x | Shape x => "/pokemon/" ++ lower x ++ "/"
  | Names l o =>
      "/pokemon?limit=" ++ str_of_int (arg_or l 2000) ++ "&offset="
        ++ str_of_int (arg_or o 0)
  | Item x => "/item/" ++ replace " " "-" (lower x) ++ "/"
  | Items l o =>
      "/item?limit=" ++ str_of_int (arg_or l 100) ++ "&offset="
        ++ str_of_int (arg_or o 0)
  end.

(** The URL of the first request of each tool. *)
Definition first_url (t : tool) : string :=
  POKEAPI_BASE_URL ++ first_endpoint t.

(** [isinstance(v, dict)] *)
Definition is_dict (v : pyval) : bool :=
  match v with
  | PDict _ => true
  | _ => false
  end.

(** [t['type']['name']] when both keys are there. *)
Definition type_name_of (t : pyval) : option pyval :=
  match field t "type" with
  | Some ty => field ty "name"
  | None => None
  end.

(** The name and base value of an element of [stats] whose
    [stat.name] is a string. *)
Definition stat_pair (s : pyval) : option (string * pyval) :=
  match field s "stat", field s "base_stat" with
  | Some st, Some b =>
      match field st "name" with
      | Some (PStr n) => Some (n, b)
      | _ => None
      end
  | _, _ => None
  end.

(** The value of the last pair with the name [k]. *)
Definition last_value (pairs : list (string * pyval)) (k : string)
  : option pyval :=
  fold_left (fun acc p => if String.eqb (fst p) k then Some (snd p) else acc)
    pairs None.

(** The record a color or shape handler returns on success; [given] is
    the identifier as it was passed in. *)
Definition attribute_record (attribute given : string) (d : pydict) : pyval :=
  PDict [(KStr "name", match lookup d "name" with
                       | Some n => n
                       | None => PStr given
                       end);
         (KStr "id", entry d "id");
         (KStr attribute, nested d attribute "name")].

(** An upper-case letter A-Z. *)
Definition is_upper (c : ascii) : bool :=
  ((65 <=? nat_of_ascii c) && (nat_of_ascii c <=? 90))%nat.

(** The value found by following [keys] from [v] through nested
    objects: null when a key is missing on the way, and nothing when a
    value on the way is there but is no object. *)
Fixpoint entry_at (v : pyval) (keys : list string) : option pyval :=
  match keys with
  | [] => Some v
  | k :: keys' =>
      match v with
      | PDict d =>
          match lookup d k with
          | Some x => entry_at x keys'
          | None => Some PNone
          end
      | _ => None
      end
  end.

(** Where the official artwork and the plain sprite are kept in a
    creature record. *)
Definition official_artwork_path : list string :=
  ["sprites"; "other"; "official-artwork"; "front_default"].

Definition front_default_path : list string := ["sprites"; "front_default"].

(* ================================================================= *)
(** ** The fetch helper *)

Lemma raise_for_status_false (c : Z) :
  raise_for_status c = false <-> 200 <= c <= 299.
Proof.
  unfold raise_for_status. rewrite negb_false_iff, andb_true_iff. lia.
Qed.


Lemma fetch_trace (api : upstream) (endpoint : string) (tr : list string) :
  snd (fetch_from_pokeapi api endpoint tr)
  = app tr [POKEAPI_BASE_URL ++ endpoint].
Proof. reflexivity. Qed.



(* ================================================================= *)
(** ** A creature that is not there *)

Lemma fetch_status_404 (api : upstream) (endpoint : string)
    (tr : list string) (text : string) (json : json_result) :
  api tr (POKEAPI_BASE_URL ++ endpoint) = Response 404 text json ->
  fetch_from_pokeapi api endpoint tr
  = (Ok (error_details "API request failed with status 404" text),
     app tr [POKEAPI_BASE_URL ++ endpoint]).
Proof.
  intros H. unfold fetch_from_pokeapi. cbv zeta. now rewrite H.
Qed.

Lemma error_details_not_success (t : tool) (message details : string) :
  ~ success_record t (error_details message details).
Proof.
  intros (d & E & K). injection E as <-.
  destruct t; discriminate K.
Qed.

(** C4. When the request for the record of a creature is answered with
    status 404, each of the four handlers that depend on the creature
    returns an error record whose [error] message contains "404"; what
    it returns is the success record of no tool. *)
Theorem creature_not_found
    (api : upstream) (pokemon_name_or_id text : string) (json : json_result)
    (tr : list string) (handler : string -> M pyval) :
  api tr (pokemon_url pokemon_name_or_id) = Response 404 text json ->
  In handler (creature_handlers api) ->
  exists v message,
    fst (handler pokemon_name_or_id tr) = Ok v /\
    field v "error" = Some (PStr message) /\
    contains "404" message = true /\
    forall t, ~ success_record t v.
Proof.
  intros Hapi Hin.
  exists (error_details "API request failed with status 404" text),
         "API request failed with status 404".
  split; [|split; [reflexivity|split; [reflexivity|]]].
  - pose proof (fetch_status_404 api _ tr text json Hapi) as F.
    destruct Hin as [<-|[<-|[<-|[<-|[]]]]].
    + unfold get_pokemon_details, mbind. now rewrite F.
    + unfold get_pokemon_types, mbind. now rewrite F.
    + unfold get_pokemon_color, get_species_data, mbind. now rewrite F.
    + unfold get_pokemon_shape, get_species_data, mbind. now rewrite F.
  - intros t. apply error_details_not_success.
Qed.

Lemma creature_not_found_witness :
  exists v message,
    fst (get_pokemon_color
           (fun _ _ => Response 404 "Not Found" (JsonFailure "no body"))
           "MissingNo" []) = Ok v /\
    field v "error" = Some (PStr message) /\
    contains "404" message = true /\
    forall t, ~ success_record t v.
Proof.
  apply (creature_not_found
           (fun _ _ => Response 404 "Not Found" (JsonFailure "no body"))
           "MissingNo" "Not Found" (JsonFailure "no body") []
           (get_pokemon_color _)).
  - reflexivity.
  - simpl. auto.
Defined.

(* ================================================================= *)
(** ** The sprite of a creature *)

Lemma fetch_success (api : upstream) (endpoint : string) (tr : list string)
    (code : Z) (text : string) (v : pyval) :
  api tr (POKEAPI_BASE_URL ++ endpoint) = Response code text (JsonValue v) ->
  200 <= code <= 299 ->
  fetch_from_pokeapi api endpoint tr
  = (Ok v, app tr [POKEAPI_BASE_URL ++ endpoint]).
Proof.
  intros H C. apply raise_for_status_false in C.
  unfold fetch_from_pokeapi. cbv zeta. now rewrite H, C.
Qed.

Lemma get_entry (d : pydict) (k : string) : get (PDict d) k = Ok (entry d k).
Proof. reflexivity. Qed.

(** The handler on a record whose projections succeed. *)
Lemma details_of_record (api : upstream) (pokemon_name_or_id : string)
    (tr : list string) (code : Z) (text : string) (d : pydict)
    (types stats official chosen : pyval) :
  api tr (pokemon_url pokemon_name_or_id)
  = Response code text (JsonValue (PDict d)) ->
  200 <= code <= 299 ->
  truthy (entry d "error") = false ->
  type_names (PDict d) = Ok types ->
  base_stats (PDict d) = Ok stats ->
  official_artwork (PDict d) = Ok official ->
  (if negb (truthy official) then front_default (PDict d) else Ok official)
  = Ok chosen ->
  fst (get_pokemon_details api pokemon_name_or_id tr)
  = Ok (details_record d types stats chosen).
Proof.
  intros Hapi Hc He Ht Hs Ho Hch.
  unfold get_pokemon_details, mbind.
  rewrite (fetch_success api _ tr code text _ Hapi Hc).
  unfold lift. rewrite get_entry, He. cbn [ret fst].
  unfold details_body. rewrite Ht, Hs, Ho. cbn [bind].
  rewrite Hch. reflexivity.
Qed.

(** Line 88 reads the entry at [official_artwork_path]. *)
Lemma official_artwork_at (d : pydict) (v : pyval) :
  entry_at (PDict d) official_artwork_path = Some v ->
  official_artwork (PDict d) = Ok v.
Proof.
  unfold official_artwork, official_artwork_path. cbn.
  destruct (lookup d "sprites") as [[| | | | |s]|]; try discriminate;
    [|now intros [= <-]].
  cbn. destruct (lookup s "other") as [[| | | | |o]|]; try discriminate;
    [|now intros [= <-]].
  cbn. destruct (lookup o "official-artwork") as [[| | | | |a]|];
    try discriminate; [|now intros [= <-]].
  cbn. destruct (lookup a "front_default"); now intros [= <-].
Qed.

(** Line 90 reads the entry at [front_default_path]. *)
Lemma front_default_at (d : pydict) (v : pyval) :
  entry_at (PDict d) front_default_path = Some v ->
  front_default (PDict d) = Ok v.
Proof.
  unfold front_default, front_default_path. cbn.
  destruct (lookup d "sprites") as [[| | | | |s]|]; try discriminate;
    [|now intros [= <-]].
  cbn. destruct (lookup s "front_default"); now intros [= <-].
Qed.

(** C8. On a creature record whose type and stat projections succeed,
    [sprite_url] is [sprites.other.official-artwork.front_default] when
    that holds a URL (any truthy value); when it is null or absent,
    [sprite_url] is [sprites.front_default]; and it is null when neither
    is there. *)
Theorem sprite_url_preference
    (api : upstream) (pokemon_name_or_id : string) (tr : list string)
    (code : Z) (text : string) (d : pydict) (types stats : pyval) :
  api tr (pokemon_url pokemon_name_or_id)
  = Response code text (JsonValue (PDict d)) ->
  200 <= code <= 299 ->
  truthy (entry d "error") = false ->
  type_names (PDict d) = Ok types ->
  base_stats (PDict d) = Ok stats ->
  let result := fst (get_pokemon_details api pokemon_name_or_id tr) in
  (forall official,
      entry_at (PDict d) official_artwork_path = Some official ->
      truthy official = true ->
      result = Ok (details_record d types stats official)) /\
  (forall fallback,
      entry_at (PDict d) official_artwork_path = Some PNone ->
      entry_at (PDict d) front_default_path = Some fallback ->
      result = Ok (details_record d types stats fallback)) /\
  (lookup d "sprites" = None ->
   result = Ok (details_record d types stats PNone)).
Proof.
  intros Hapi Hc He Ht Hs result. subst result.
  repeat split.
  - intros official Ho Hne. apply official_artwork_at in Ho.
    apply (details_of_record api _ tr code text d types stats official);
      auto.
    now rewrite Hne.
  - intros fallback Ho Hf.
    apply official_artwork_at in Ho. apply front_default_at in Hf.
    now apply (details_of_record api _ tr code text d types stats PNone).
  - intros Hn.
    apply (details_of_record api _ tr code text d types stats PNone); auto.
    + unfold official_artwork. cbn. now rewrite Hn.
    + cbn. unfold front_default. cbn. now rewrite Hn.
Qed.

(** The record of the specification's example: the official artwork is
    null and [sprites.front_default] is "http://x/y.png". *)
Lemma sprite_url_preference_witness :
  let d :=
    [(KStr "sprites",
      PDict [(KStr "front_default", PStr "http://x/y.png");
             (KStr "other",
              PDict [(KStr "official-artwork",
                      PDict [(KStr "front_default", PNone)])])])] in
  fst (get_pokemon_details (fun _ _ => Response 200 "" (JsonValue (PDict d)))
         "pikachu" [])
  = Ok (details_record d (PList []) (PDict []) (PStr "http://x/y.png")).
Proof.
  intros d.
  refine (proj1 (proj2 (sprite_url_preference
                          (fun _ _ => Response 200 "" (JsonValue (PDict d)))
                          "pikachu" [] 200 "" d (PList []) (PDict [])
                          eq_refl _ eq_refl eq_refl eq_refl))
                 _ eq_refl eq_refl).
  lia.
Defined.

(** C10. The fallback is taken whenever the official artwork is a falsy
    value, not only when it is null or absent: with null, the empty
    string, [false] or 0 (or any other falsy value) under
    [sprites.other.official-artwork.front_default], [sprite_url] is
    [sprites.front_default]. *)
Theorem falsy_artwork_falls_back
    (api : upstream) (pokemon_name_or_id : string) (tr : list string)
    (code : Z) (text : string) (d : pydict)
    (types stats official fallback : pyval) :
  api tr (pokemon_url pokemon_name_or_id)
  = Response code text (JsonValue (PDict d)) ->
  200 <= code <= 299 ->
  truthy (entry d "error") = false ->
  type_names (PDict d) = Ok types ->
  base_stats (PDict d) = Ok stats ->
  entry_at (PDict d) official_artwork_path = Some official ->
  In official [PNone; PStr ""; PBool false; PInt 0] \/ truthy official = false ->
  entry_at (PDict d) front_default_path = Some fallback ->
  fst (get_pokemon_details api pokemon_name_or_id tr)
  = Ok (details_record d types stats fallback).
Proof.
  intros Hapi Hc He Ht Hs Ho Hfalsy Hf.
  apply official_artwork_at in Ho. apply front_default_at in Hf.
  assert (truthy official = false) as Hfalse.
  { destruct Hfalsy as [[<-|[<-|[<-|[<-|[]]]]]|H]; auto. }
  apply (details_of_record api _ tr code text d types stats official); auto.
  now rewrite Hfalse.
Qed.

(** An empty official-artwork URL is replaced by [sprites.front_default]. *)
Lemma falsy_artwork_falls_back_witness :
  let d :=
    [(KStr "sprites",
      PDict [(KStr "front_default", PStr "http://x/y.png");
             (KStr "other",
              PDict [(KStr "official-artwork",
                      PDict [(KStr "front_default", PStr "")])])])] in
  fst (get_pokemon_details (fun _ _ => Response 200 "" (JsonValue (PDict d)))
         "pikachu" [])
  = Ok (details_record d (PList []) (PDict []) (PStr "http://x/y.png")).
Proof.
  intros d.
  apply (falsy_artwork_falls_back
           (fun _ _ => Response 200 "" (JsonValue (PDict d)))
           "pikachu" [] 200 "" d (PList []) (PDict []) (PStr ""));
    try reflexivity; [lia | simpl; auto].
Defined.

(* ================================================================= *)
(** ** The short effect of an item *)

Lemma get_default_nested (d : pydict) (k : string) :
  dict_or_absent d k = true ->
  exists d', get_default (PDict d) k (PDict []) = Ok (PDict d') /\
             forall k', get (PDict d') k' = Ok (nested d k k').
Proof.
  unfold dict_or_absent, nested. cbn.
  destruct (lookup d k) as [[]|]; intros H; try discriminate H;
    eexists; split; reflexivity.
Qed.

(** The loop of lines 287-290 computes what the specification words. *)
Lemma effect_loop_english (entries : list pyval) :
  forallb entry_ok entries = true ->
  effect_loop entries (PStr "N/A") = Ok (english_short_effect entries).
Proof.
  unfold english_short_effect.
  induction entries as [|e entries IH]; intros H; [reflexivity|].
  cbn [forallb] in H. apply andb_true_iff in H as [He H].
  cbn [effect_loop find].
  destruct e as [| | | | |d]; try discriminate He.
  cbn [entry_ok] in He.
  destruct (get_default_nested d "language" He) as (l & -> & N).
  cbn [bind]. rewrite N. cbn [bind].
  assert (is_english (PDict d) = eq_str (nested d "language" "name") "en")
    as ->.
  { unfold is_english, nested, dict_or_absent, entry in *. cbn [field].
    destruct (lookup d "language") as [[]|]; try discriminate He;
      try reflexivity.
    cbn [field]. now destruct (lookup d0 "name"). }
  destruct (eq_str (nested d "language" "name") "en").
  - reflexivity.
  - now apply IH.
Qed.

(** C7. On an item record whose [effect_entries] is a list of entries
    (and whose [sprites] and [category] can be read), [short_effect] is
    taken from the first entry whose [language.name] is "en"; with no
    such entry it is "N/A". *)
Theorem item_short_effect
    (api : upstream) (item_name_or_id : string) (tr : list string)
    (code : Z) (text : string) (d : pydict) (entries : list pyval) :
  api tr (item_url item_name_or_id)
  = Response code text (JsonValue (PDict d)) ->
  200 <= code <= 299 ->
  truthy (entry d "error") = false ->
  get_default (PDict d) "effect_entries" (PList []) = Ok (PList entries) ->
  forallb entry_ok entries = true ->
  dict_or_absent d "sprites" = true ->
  dict_or_absent d "category" = true ->
  fst (get_item_details api item_name_or_id tr)
  = Ok (item_record d (english_short_effect entries)) /\
  ((forall e, In e entries -> is_english e = false) ->
   fst (get_item_details api item_name_or_id tr)
   = Ok (item_record d (PStr "N/A"))).
Proof.
  intros Hapi Hc He Hent Hok Hs Hcat.
  assert (fst (get_item_details api item_name_or_id tr)
          = Ok (item_record d (english_short_effect entries))) as R.
  { unfold get_item_details, mbind.
    rewrite (fetch_success api _ tr code text _ Hapi Hc).
    unfold lift. rewrite get_entry, He. cbn [ret fst].
    unfold item_body. rewrite Hent. cbn [bind iterate].
    rewrite (effect_loop_english entries Hok). cbn [bind].
    destruct (get_default_nested d "sprites" Hs) as (s & -> & S).
    destruct (get_default_nested d "category" Hcat) as (c & C & N).
    cbn [bind]. rewrite S. cbn [bind]. rewrite !get_entry. cbn [bind].
    rewrite C. cbn [bind get_default]. rewrite N. reflexivity. }
  split; [exact R|].
  intros Hno. rewrite R. unfold english_short_effect.
  destruct (find is_english entries) as [e|] eqn:F; [|reflexivity].
  apply find_some in F as [Hin Hen]. rewrite (Hno e Hin) in Hen.
  discriminate Hen.
Qed.

(** An item with a Japanese entry only. *)
Lemma item_short_effect_witness :
  let entries :=
    [PDict [(KStr "language", PDict [(KStr "name", PStr "ja")]);
            (KStr "short_effect", PStr "kouka")]] in
  let d := [(KStr "name", PStr "poke-ball");
            (KStr "effect_entries", PList entries)] in
  fst (get_item_details (fun _ _ => Response 200 "" (JsonValue (PDict d)))
         "Poke Ball" [])
  = Ok (item_record d (PStr "N/A")).
Proof.
  intros entries d.
  refine (proj2 (item_short_effect
                   (fun _ _ => Response 200 "" (JsonValue (PDict d)))
                   "Poke Ball" [] 200 "" d entries
                   eq_refl _ eq_refl eq_refl eq_refl eq_refl eq_refl) _).
  - lia.
  - intros e [<-|[]]. reflexivity.
Defined.

(* ================================================================= *)
(** ** Listings *)

(** The numeral in the query denotes the number passed in. *)
Lemma int_of_str_of_int (z : Z) : int_of_str (str_of_int z) = Some z.
Proof.
  unfold int_of_str, str_of_int.
  rewrite NilZero.isi.
  - cbn [option_map]. now rewrite DecimalZ.of_to.
  - destruct z; cbn; try discriminate.
    intros [= E]. now apply DecimalPos.Unsigned.to_uint_nonnil in E.
  - destruct z; cbn; try discriminate.
    intros [= E]. now apply DecimalPos.Unsigned.to_uint_nonnil in E.
Qed.

Lemma names_of_results (rs names : list pyval) :
  map (fun r => field r "name") rs = map Some names ->
  list_comp (fun p => subscript p "name") rs = Ok names.
Proof.
  revert names.
  induction rs as [|r rs IH]; intros [|n names] H; try discriminate H.
  - reflexivity.
  - cbn [map] in H. injection H as Hr Hrs.
    cbn [list_comp]. rewrite (IH names Hrs).
    destruct r; try discriminate Hr.
    cbn [field] in Hr. cbn [subscript]. now rewrite Hr.
Qed.




(* ================================================================= *)
(** ** The species resolver *)

Lemma prefix_append (p s : string) : String.prefix p (p ++ s) = true.
Proof.
  induction p as [|c p IH]; [now destruct s|].
  cbn. destruct (ascii_dec c c); [exact IH|contradiction].
Qed.

Lemma replace_from_skip (old new p s : string) :
  replace_from old new (String.length p) (p ++ s) = replace_from old new O s.
Proof.
  induction p as [|c p IH]; [reflexivity|exact IH].
Qed.

Lemma replace_from_absent (old new s : string) :
  contains old s = false -> replace_from old new O s = s.
Proof.
  induction s as [|c s IH]; intros H; [reflexivity|].
  cbn [contains] in H. apply orb_false_iff in H as [Hp Hs].
  cbn [replace_from]. rewrite Hp. now rewrite IH.
Qed.

(** Removing [old] from [old ++ s] leaves [s] when [old] does not occur
    in [s] again. *)
Lemma replace_strips_prefix (old s : string) :
  old <> "" -> contains old s = false -> replace old "" (old ++ s) = s.
Proof.
  intros Hne Hs. destruct old as [|c o]; [contradiction|].
  unfold replace.
  change (String c o ++ s) with (String c (o ++ s)).
  cbn [replace_from].
  change (String c (o ++ s)) with (String c o ++ s).
  rewrite prefix_append.
  cbn [String.length Nat.pred append].
  rewrite replace_from_skip. now apply replace_from_absent.
Qed.

(** C3, as the code has it.  When the first fetch succeeds with a record
    (one without a truthy [error] entry) whose [species.url] is the base
    URL followed by a path in which the base URL does not occur again,
    the resolver issues its second fetch on exactly that path and returns
    what that fetch returns, so the species record when the upstream
    answers with one; when [species] or its [url] is absent, it returns
    the record "Species URL not found" with the [name] entry of the first
    response (null when there is none), and issues no second request. *)
Theorem species_resolution
    (api : upstream) (pokemon_name_or_id : string) (tr : list string)
    (code : Z) (text : string) (d : pydict) :
  api tr (pokemon_url pokemon_name_or_id)
  = Response code text (JsonValue (PDict d)) ->
  200 <= code <= 299 ->
  truthy (entry d "error") = false ->
  let tr1 := app tr [pokemon_url pokemon_name_or_id] in
  (forall species path,
      lookup d "species" = Some (PDict species) ->
      lookup species "url" = Some (PStr (POKEAPI_BASE_URL ++ path)) ->
      contains POKEAPI_BASE_URL path = false ->
      get_species_data api pokemon_name_or_id tr
      = fetch_from_pokeapi api path tr1 /\
      snd (get_species_data api pokemon_name_or_id tr)
      = app tr1 [POKEAPI_BASE_URL ++ path] /\
      forall code2 text2 record,
        api tr1 (POKEAPI_BASE_URL ++ path)
        = Response code2 text2 (JsonValue record) ->
        200 <= code2 <= 299 ->
        fst (get_species_data api pokemon_name_or_id tr) = Ok record) /\
  (lookup d "species" = None \/
   (exists species, lookup d "species" = Some (PDict species) /\
                    lookup species "url" = None) ->
   get_species_data api pokemon_name_or_id tr
   = (Ok (error_name "Species URL not found" (entry d "name")), tr1)).
Proof.
  intros Hapi Hc He tr1.
  assert (forall k : pyval -> M pyval,
             (pokemon_data <~ fetch_from_pokeapi api
                ("/pokemon/" ++ lower pokemon_name_or_id ++ "/") ;;
              k pokemon_data) tr = k (PDict d) tr1) as Hfetch.
  { intros k. unfold mbind.
    now rewrite (fetch_success api _ tr code text _ Hapi Hc). }
  split.
  - intros species path Hsp Hurl Hpath.
    assert (get_species_data api pokemon_name_or_id tr
            = fetch_from_pokeapi api path tr1) as R.
    { unfold get_species_data. cbv zeta. rewrite Hfetch.
      unfold mbind, lift. rewrite get_entry, He.
      cbn [get_default bind negb]. rewrite Hsp. cbn [get get_default].
      rewrite Hurl.
      change (truthy (PStr (POKEAPI_BASE_URL ++ path))) with true.
      cbn [negb replace_method].
      rewrite replace_strips_prefix by (discriminate || assumption).
      destruct (fetch_from_pokeapi api path tr1) as [[v|e] tr2];
        reflexivity. }
    split; [exact R|]. rewrite R. split; [reflexivity|].
    intros code2 text2 record H2 Hc2.
    now rewrite (fetch_success api path tr1 code2 text2 record H2 Hc2).
  - intros Habsent.
    unfold get_species_data. cbv zeta. rewrite Hfetch.
    unfold mbind, lift. rewrite get_entry, He.
    cbn [get_default bind].
    destruct Habsent as [Hn|(species & Hsp & Hurl)].
    + rewrite Hn. reflexivity.
    + rewrite Hsp. cbn [get get_default]. rewrite Hurl. reflexivity.
Qed.

(** The creature of the specification's example: its species lives at
    "{base}/pokemon-species/25/". *)
Lemma species_resolution_witness :
  let species := PDict [(KStr "id", PInt 25); (KStr "name", PStr "pikachu");
                        (KStr "color", PDict [(KStr "name", PStr "yellow")])] in
  let d := [(KStr "id", PInt 25); (KStr "name", PStr "pikachu");
            (KStr "species",
             PDict [(KStr "name", PStr "pikachu");
                    (KStr "url",
                     PStr "https://pokeapi.co/api/v2/pokemon-species/25/")])] in
  let api := serve [(pokemon_url "pikachu", PDict d);
                    ("https://pokeapi.co/api/v2/pokemon-species/25/",
                     species)] in
  snd (get_species_data api "Pikachu" [])
  = [pokemon_url "pikachu";
     "https://pokeapi.co/api/v2/pokemon-species/25/"] /\
  fst (get_species_data api "Pikachu" []) = Ok species.
Proof.
  intros species d api.
  destruct (proj1 (species_resolution api "Pikachu" [] 200 "" d
                     eq_refl ltac:(lia) eq_refl)
              _ "/pokemon-species/25/" eq_refl eq_refl eq_refl)
    as (_ & T & R).
  split; [exact T|].
  apply (R 200 "" species eq_refl). lia.
Defined.

(** C3, as stated, fails: [str.replace] removes every occurrence of
    the base URL, not only the leading one.  With [species.url] the
    base URL followed by the path "/a/{base}", the second fetch goes to
    "/a/" and the resolver returns the error record of that request, not
    the species record served under the stripped path.  And a creature
    record that has a truthy [error] member is returned as it came: no
    second fetch is issued. *)
Lemma species_path_loses_inner_base_url :
  let path := "/a/" ++ POKEAPI_BASE_URL in
  let species := PDict [(KStr "id", PInt 25)] in
  let d := [(KStr "species",
             PDict [(KStr "url", PStr (POKEAPI_BASE_URL ++ path))])] in
  let api := serve [(pokemon_url "pikachu", PDict d);
                    (POKEAPI_BASE_URL ++ path, species)] in
  let d' := [(KStr "error", PStr "deprecated");
             (KStr "species",
              PDict [(KStr "url",
                      PStr (POKEAPI_BASE_URL ++ "/pokemon-species/25/"))])] in
  let api' := serve [(pokemon_url "pikachu", PDict d');
                     (POKEAPI_BASE_URL ++ "/pokemon-species/25/", species)] in
  (api [] (pokemon_url "pikachu") = Response 200 "" (JsonValue (PDict d)) /\
   fst (fetch_from_pokeapi api path [pokemon_url "pikachu"]) = Ok species /\
   get_species_data api "pikachu" []
   = (Ok (error_details "API request failed with status 404" "Not Found"),
      [pokemon_url "pikachu"; POKEAPI_BASE_URL ++ "/a/"]) /\
   get_species_data api "pikachu" []
   <> fetch_from_pokeapi api path [pokemon_url "pikachu"]) /\
  (api' [] (pokemon_url "pikachu") = Response 200 "" (JsonValue (PDict d')) /\
   get_species_data api' "pikachu" []
   = (Ok (PDict d'), [pokemon_url "pikachu"])).
Proof.
  intros path species d api d' api'.
  split; [|split; [reflexivity|vm_compute; reflexivity]].
  split; [reflexivity|]. split; [reflexivity|].
  assert (get_species_data api "pikachu" []
          = (Ok (error_details "API request failed with status 404"
                   "Not Found"),
             [pokemon_url "pikachu"; POKEAPI_BASE_URL ++ "/a/"])) as R
      by (vm_compute; reflexivity).
  split; [exact R|].
  rewrite R. vm_compute. discriminate.
Qed.

(* ================================================================= *)
(** ** Normalization of identifiers *)

Lemma lower_char_idempotent (c : ascii) :
  lower_char (lower_char c) = lower_char c.
Proof. destruct c as [[] [] [] [] [] [] [] []]; reflexivity. Qed.

Lemma lower_idempotent (s : string) : lower (lower s) = lower s.
Proof.
  induction s as [|c s IH]; [reflexivity|].
  cbn [lower]. now rewrite lower_char_idempotent, IH.
Qed.

Lemma replace_space_cons (c : ascii) (s : string) :
  replace " " "-" (String c s) = String (hyphenate c) (replace " " "-" s).
Proof.
  unfold replace, hyphenate. cbn [replace_from String.prefix].
  destruct (ascii_dec " " c) as [<-|Hne].
  - cbn. now destruct s.
  - destruct (Ascii.eqb_spec c " ") as [->|_]; [contradiction|reflexivity].
Qed.

Lemma normalize_item_cons (c : ascii) (s : string) :
  normalize_item (String c s)
  = String (hyphenate (lower_char c)) (normalize_item s).
Proof. unfold normalize_item. cbn [lower]. apply replace_space_cons. Qed.

Lemma hyphenate_lower_idempotent (c : ascii) :
  hyphenate (lower_char (hyphenate (lower_char c)))
  = hyphenate (lower_char c).
Proof. destruct c as [[] [] [] [] [] [] [] []]; reflexivity. Qed.

Lemma normalize_item_idempotent (s : string) :
  normalize_item (normalize_item s) = normalize_item s.
Proof.
  induction s as [|c s IH]; [reflexivity|].
  rewrite !normalize_item_cons. now rewrite hyphenate_lower_idempotent, IH.
Qed.

(** The color and shape handlers use their argument a second time, as
    the default of the [name] field; with a [name] entry in the species
    record that default is not taken. *)
Lemma attribute_body_named (field message x y : string) (d : pydict) :
  lookup d "name" <> None ->
  attribute_body field message (PDict d) x
  = attribute_body field message (PDict d) y.
Proof.
  intros Hname. unfold attribute_body.
  destruct (get_default (PDict d) field (PDict [])) as [a|e];
    [|reflexivity].
  cbn [bind]. destruct (get a "name") as [n|e]; [|reflexivity].
  cbn [bind get_default]. destruct (truthy n); cbn [negb]; [|reflexivity].
  destruct (lookup d "name"); [reflexivity|contradiction].
Qed.

Lemma attribute_handler_named (api : upstream) (field message failure : string)
    (x y : string) (tr : list string) :
  lower x = lower y ->
  (forall d, fst (get_species_data api x tr) = Ok (PDict d) ->
             truthy (entry d "error") = true \/ lookup d "name" <> None) ->
  (data <~ get_species_data api x ;;
   err <~ lift (get data "error") ;;
   if truthy err then ret data
   else ret (try_except (attribute_body field message data x) failure)) tr
  = (data <~ get_species_data api y ;;
     err <~ lift (get data "error") ;;
     if truthy err then ret data
     else ret (try_except (attribute_body field message data y) failure)) tr.
Proof.
  intros Hxy Hname.
  assert (get_species_data api y = get_species_data api x) as ->.
  { unfold get_species_data. now rewrite Hxy. }
  unfold mbind.
  destruct (get_species_data api x tr) as [[data|e] tr']; [|reflexivity].
  unfold lift. destruct data as [| | | | |d]; try reflexivity.
  rewrite get_entry.
  destruct (truthy (entry d "error")) eqn:He; [reflexivity|].
  destruct (Hname d eq_refl) as [H|H]; [congruence|].
  now rewrite (attribute_body_named field message x y d H).
Qed.

(** C5, as the code has it.  Lower-casing, and lower-casing followed by
    hyphenation, are idempotent.  The details and types handlers and the
    species resolver depend on the identifier only through its lower-case
    form, the item handler only through its lower-case hyphenated form;
    so "Pikachu" and "pikachu", and "Poke Ball" and "poke-ball", give
    the same results.  The color and shape handlers do so whenever the
    species record they receive has a [name] entry (or is an error). *)
Theorem identifier_normalization (api : upstream) (tr : list string) :
  (forall x, lower (lower x) = lower x) /\
  (forall x, normalize_item (normalize_item x) = normalize_item x) /\
  (forall x y, lower x = lower y ->
     get_pokemon_details api x tr = get_pokemon_details api y tr /\
     get_pokemon_types api x tr = get_pokemon_types api y tr /\
     get_species_data api x tr = get_species_data api y tr) /\
  (forall x y, normalize_item x = normalize_item y ->
     get_item_details api x tr = get_item_details api y tr) /\
  (forall x y, lower x = lower y ->
     (forall d, fst (get_species_data api x tr) = Ok (PDict d) ->
                truthy (entry d "error") = true \/ lookup d "name" <> None) ->
     get_pokemon_color api x tr = get_pokemon_color api y tr /\
     get_pokemon_shape api x tr = get_pokemon_shape api y tr) /\
  lower "Pikachu" = lower "pikachu" /\
  normalize_item "Poke Ball" = normalize_item "poke-ball".
Proof.
  split; [exact lower_idempotent|].
  split; [exact normalize_item_idempotent|].
  split; [|split; [|split; [|split; reflexivity]]].
  - intros x y Hxy.
    unfold get_pokemon_details, get_pokemon_types, get_species_data.
    cbv zeta. now rewrite Hxy.
  - intros x y Hxy. unfold get_item_details. cbv zeta.
    fold (normalize_item x). fold (normalize_item y). now rewrite Hxy.
  - intros x y Hxy Hname. split.
    + apply attribute_handler_named; assumption.
    + apply attribute_handler_named; assumption.
Qed.

(** "Pikachu" and "pikachu" with a species record that has a name. *)
Lemma identifier_normalization_witness :
  let species := PDict [(KStr "id", PInt 25); (KStr "name", PStr "pikachu");
                        (KStr "color", PDict [(KStr "name", PStr "yellow")])] in
  let d := [(KStr "species",
             PDict [(KStr "url",
                     PStr "https://pokeapi.co/api/v2/pokemon-species/25/")])] in
  let api := serve [(pokemon_url "pikachu", PDict d);
                    ("https://pokeapi.co/api/v2/pokemon-species/25/",
                     species)] in
  get_pokemon_color api "Pikachu" [] = get_pokemon_color api "pikachu" [].
Proof.
  intros species d api.
  refine (proj1 (proj1 (proj2 (proj2 (proj2 (proj2
            (identifier_normalization api [])))))
            "Pikachu" "pikachu" eq_refl _)).
  intros d' H. right.
  vm_compute in H. injection H as <-. cbn. discriminate.
Defined.

(** C5, as stated, fails for the color (and shape) handler: when the
    species record has no [name] entry, the success record carries the
    identifier as it was given, so "Pikachu" and "pikachu" give different
    results. *)
Lemma color_keeps_the_spelling_given :
  let species := PDict [(KStr "color", PDict [(KStr "name", PStr "yellow")])] in
  let d := [(KStr "species",
             PDict [(KStr "url",
                     PStr "https://pokeapi.co/api/v2/pokemon-species/25/")])] in
  let api := serve [(pokemon_url "pikachu", PDict d);
                    ("https://pokeapi.co/api/v2/pokemon-species/25/",
                     species)] in
  fst (get_pokemon_color api "Pikachu" [])
  = Ok (PDict [(KStr "name", PStr "Pikachu"); (KStr "id", PNone);
               (KStr "color", PStr "yellow")]) /\
  fst (get_pokemon_color api "pikachu" [])
  = Ok (PDict [(KStr "name", PStr "pikachu"); (KStr "id", PNone);
               (KStr "color", PStr "yellow")]) /\
  fst (get_pokemon_color api "Pikachu" [])
  <> fst (get_pokemon_color api "pikachu" []).
Proof.
  intros species d api.
  assert (fst (get_pokemon_color api "Pikachu" [])
          = Ok (PDict [(KStr "name", PStr "Pikachu"); (KStr "id", PNone);
                       (KStr "color", PStr "yellow")])) as A
      by (vm_compute; reflexivity).
  assert (fst (get_pokemon_color api "pikachu" [])
          = Ok (PDict [(KStr "name", PStr "pikachu"); (KStr "id", PNone);
                       (KStr "color", PStr "yellow")])) as B
      by (vm_compute; reflexivity).
  split; [exact A|]. split; [exact B|].
  rewrite A, B. discriminate.
Qed.

(* ================================================================= *)
(** ** What a handler can return *)

Lemma run_guarded (api : upstream) (t : tool) :
  run api t = guarded (source_of api t) (body_of t) (failure_of t).
Proof. destruct t; reflexivity. Qed.

Lemma fetch_sourced (api : upstream) (t : tool) (endpoint : string)
    (tr : list string) :
  exists v, fetch_from_pokeapi api endpoint tr
            = (Ok v, app tr [POKEAPI_BASE_URL ++ endpoint]) /\
            sourced api t v.
Proof.
  unfold fetch_from_pokeapi. cbv zeta.
  destruct (api tr (POKEAPI_BASE_URL ++ endpoint))
    as [code text json|cause|cause] eqn:A.
  - destruct (raise_for_status code) eqn:C.
    + eexists. split; [reflexivity|]. left. eexists _, _.
      split; reflexivity.
    + destruct json as [v|cause].
      * exists v. split; [reflexivity|]. right. left.
        now exists tr, (POKEAPI_BASE_URL ++ endpoint), code, text.
      * eexists. split; [reflexivity|]. left. eexists _, _.
        split; reflexivity.
  - eexists. split; [reflexivity|]. left. eexists _, _. split; reflexivity.
  - eexists. split; [reflexivity|]. left. eexists _, _. split; reflexivity.
Qed.

Lemma species_sourced (api : upstream) (t : tool) (x : string)
    (tr tr' : list string) (v : pyval) :
  species_tool t = true ->
  get_species_data api x tr = (Ok v, tr') -> sourced api t v.
Proof.
  intros Ht. unfold get_species_data, mbind. cbv zeta.
  destruct (fetch_sourced api t ("/pokemon/" ++ lower x ++ "/") tr)
    as (v0 & -> & S0).
  unfold lift.
  destruct (get v0 "error") as [err|]; [|discriminate].
  destruct (truthy err).
  { intros [= <- _]. exact S0. }
  destruct (species <- get_default v0 "species" (PDict []) ;;
            get species "url") as [u|]; [|discriminate].
  destruct (negb (truthy u)).
  { destruct (get v0 "name") as [n|]; [|discriminate].
    intros [= <- _]. right. right. split; [exact Ht|now exists n]. }
  destruct (replace_method u POKEAPI_BASE_URL "") as [p|]; [|discriminate].
  destruct (fetch_sourced api t p
              (app tr [POKEAPI_BASE_URL ++ "/pokemon/" ++ lower x ++ "/"]))
    as (v1 & -> & S1).
  intros [= <- _]. exact S1.
Qed.

Lemma source_sourced (api : upstream) (t : tool) (tr tr' : list string)
    (v : pyval) :
  source_of api t tr = (Ok v, tr') -> sourced api t v.
Proof.
  destruct t eqn:Et; cbn [source_of];
    try (intros H; match type of H with
                   | fetch_from_pokeapi api ?e tr = _ =>
                       destruct (fetch_sourced api t e tr) as (v0 & E & S);
                       rewrite E in H; injection H as <- _;
                       rewrite <- Et; exact S
                   end);
    now apply species_sourced.
Qed.

Lemma body_returned (api : upstream) (t : tool) (data r : pyval) :
  body_of t data = Ok r -> returned api t r.
Proof.
  destruct t; cbn [body_of];
    unfold details_body, types_body, attribute_body, listing_body, item_body;
    intros H; body_cases H;
    repeat match type of H with
           | context [if ?b then _ else _] => destruct b; try discriminate H
           end;
    injection H as <-;
    first [ apply returned_success; eexists; split; reflexivity
          | apply returned_not_found; [reflexivity|cbn; auto] ].
Qed.

Lemma failure_truthy (t : tool) : truthy (PStr (failure_of t)) = true.
Proof. destruct t; reflexivity. Qed.

(** The shape of every value a handler returns. *)
Lemma run_returned (api : upstream) (t : tool) (tr : list string) (v : pyval) :
  fst (run api t tr) = Ok v -> returned api t v.
Proof.
  rewrite run_guarded. unfold guarded, mbind.
  destruct (source_of api t tr) as [[data|e] tr'] eqn:S; [|discriminate].
  apply source_sourced in S.
  unfold lift.
  destruct (get data "error") as [err|] eqn:G; [|discriminate].
  destruct (truthy err) eqn:T; cbn [ret fst].
  - intros [= <-].
    destruct S as [(m & det & -> & Hm)|[Hs|(Ht & n & ->)]].
    + now apply returned_failure.
    + destruct data as [| | | | |d]; try discriminate G.
      rewrite get_entry in G. injection G as <-.
      now apply returned_upstream.
    + apply returned_not_found; [exact Ht|cbn; auto].
  - intros [= <-]. destruct (body_of t data) as [r|e] eqn:B; cbn [try_except].
    + now apply (body_returned api t data).
    + apply returned_failure, failure_truthy.
Qed.

Lemma success_record_fields (t : tool) (v : pyval) :
  success_record t v ->
  field v "error" = None /\ field v "details" = None.
Proof.
  intros (d & -> & K).
  destruct t; cbn in K;
    repeat (destruct d as [|[? ?] d]; cbn in K; try discriminate K);
    inversion K; subst; split; reflexivity.
Qed.

Lemma error_name_not_success (t : tool) (message : string) (name : pyval) :
  ~ success_record t (error_name message name).
Proof.
  intros (d & E & K). injection E as <-.
  destruct t; discriminate K.
Qed.

(** With well-formed bodies the fetch helper hands over a dict. *)
Lemma sourced_dict (api : upstream) (t : tool) (v : pyval) :
  well_formed_upstream t api -> sourced api t v ->
  exists d, v = PDict d /\
            (truthy (entry d "error") = true \/
             (species_tool t = true -> species_ref_ok d = true)).
Proof.
  intros W [(m & det & -> & Hm)|[Hs|(_ & n & ->)]].
  - eexists. split; [reflexivity|]. left. exact Hm.
  - specialize (W v Hs). destruct v as [| | | | |d]; try discriminate W.
    exists d. split; [reflexivity|]. right. intros Ht.
    cbn [body_ok] in W. now rewrite Ht in W.
  - eexists. split; [reflexivity|]. left. reflexivity.
Qed.

Lemma species_total (api : upstream) (t : tool) (x : string)
    (tr : list string) :
  well_formed_upstream t api -> species_tool t = true ->
  exists d tr', get_species_data api x tr = (Ok (PDict d), tr').
Proof.
  intros W Ht. unfold get_species_data, mbind. cbv zeta.
  destruct (fetch_sourced api t ("/pokemon/" ++ lower x ++ "/") tr)
    as (v0 & -> & S0).
  destruct (sourced_dict api t v0 W S0) as (d & -> & Hd).
  unfold lift. rewrite get_entry.
  destruct (truthy (entry d "error")) eqn:He; [now eexists _, _|].
  destruct Hd as [Hd|Hd]; [discriminate Hd|]. specialize (Hd Ht).
  cbn [get_default bind]. unfold species_ref_ok in Hd.
  destruct (lookup d "species") as [[| | | | |species]|];
    try discriminate Hd; [|now eexists _, _].
  cbn [get get_default].
  destruct (lookup species "url") as [u|]; [|now eexists _, _].
  destruct (truthy u) eqn:Tu; cbn [negb]; [|now eexists _, _].
  destruct u as [| | |s| |]; cbn [negb] in Hd; try discriminate Hd.
  cbn [replace_method].
  destruct (fetch_sourced api t (replace POKEAPI_BASE_URL "" s)
              (app tr [POKEAPI_BASE_URL ++ "/pokemon/" ++ lower x ++ "/"]))
    as (v1 & -> & S1).
  destruct (sourced_dict api t v1 W S1) as (d1 & -> & _).
  now eexists _, _.
Qed.

Lemma source_total (api : upstream) (t : tool) (tr : list string) :
  well_formed_upstream t api ->
  exists d tr', source_of api t tr = (Ok (PDict d), tr').
Proof.
  intros W.
  destruct t eqn:Et; cbn [source_of];
    try (match goal with
         | |- context [fetch_from_pokeapi api ?e tr] =>
             destruct (fetch_sourced api t e tr) as (v0 & -> & S);
             rewrite <- Et in W;
             destruct (sourced_dict api t v0 W S) as (d & -> & _);
             now eexists _, _
         end);
    rewrite <- Et in W; apply (species_total api t); auto; now rewrite Et.
Qed.

Lemma run_total (api : upstream) (t : tool) (tr : list string) :
  well_formed_upstream t api -> exists v, fst (run api t tr) = Ok v.
Proof.
  intros W. rewrite run_guarded. unfold guarded, mbind.
  destruct (source_total api t tr W) as (d & tr' & ->).
  unfold lift. rewrite get_entry.
  destruct (truthy (entry d "error")); eexists; reflexivity.
Qed.

Lemma not_found_truthy (message : string) :
  In message not_found_messages -> truthy (PStr message) = true.
Proof. intros [<-|[<-|[<-|[]]]]; reflexivity. Qed.

(** C1, as the code has it.  A value a handler returns is exactly one
    of two things: a success record, with exactly the fields of the tool
    and no [error] entry, or a record with a truthy [error] entry that is
    not a success record; the [error] entry is a message string unless
    the record is an upstream body handed on as it came.  An error record
    may carry other entries.  The handler does return a value whenever
    every body the upstream serves is a JSON object (for color and shape,
    one whose species reference can be read). *)
Theorem handler_output_shape
    (api : upstream) (t : tool) (tr : list string) :
  (forall v, fst (run api t tr) = Ok v ->
     (success_record t v /\ field v "error" = None) \/
     (exists e, field v "error" = Some e /\ truthy e = true /\
                ~ success_record t v /\
                (served api v \/ exists message, e = PStr message))) /\
  (well_formed_upstream t api -> exists v, fst (run api t tr) = Ok v).
Proof.
  split; [|apply run_total].
  intros v H. apply run_returned in H.
  destruct H as [v Hs|message details Hm|message name Ht Hin|d Hs He].
  - left. split; [exact Hs|]. now apply (success_record_fields t).
  - right. exists (PStr message). split; [reflexivity|].
    split; [exact Hm|]. split; [apply error_details_not_success|].
    right. now exists message.
  - right. exists (PStr message). split; [reflexivity|].
    split; [now apply not_found_truthy|].
    split; [apply error_name_not_success|]. right. now exists message.
  - right. unfold entry in He. cbn [field].
    destruct (lookup d "error") as [e|] eqn:L; [|discriminate He].
    exists e. split; [reflexivity|]. split; [exact He|].
    split; [|now left].
    intros Hsucc. apply success_record_fields in Hsucc as [Hn _].
    cbn [field] in Hn. congruence.
Qed.

(** A creature record without sprites, types or stats gives a success
    record. *)
Lemma handler_output_shape_witness :
  let api : upstream :=
    fun _ _ => Response 200 "" (JsonValue (PDict [(KStr "id", PInt 25)])) in
  let v := details_record [(KStr "id", PInt 25)] (PList []) (PDict []) PNone in
  (success_record (Details "pikachu") v /\ field v "error" = None) \/
  (exists e, field v "error" = Some e /\ truthy e = true /\
             ~ success_record (Details "pikachu") v /\
             (served api v \/ exists message, e = PStr message)).
Proof.
  intros api v.
  exact (proj1 (handler_output_shape api (Details "pikachu") []) v eq_refl).
Defined.

(** C1, as stated, fails: an error record can carry fields of the
    success record.  An upstream body that has a truthy [error] member
    is returned as it came, with all its other members; and the record
    "Color not found in species data" carries the [name] of the
    species. *)
Lemma error_record_with_success_fields :
  let body := PDict [(KStr "name", PStr "pikachu"); (KStr "id", PInt 25);
                     (KStr "types", PList []);
                     (KStr "error", PStr "deprecated")] in
  let api := serve [(pokemon_url "pikachu", body)] in
  let creature :=
    PDict [(KStr "species",
            PDict [(KStr "url",
                    PStr "https://pokeapi.co/api/v2/pokemon-species/25/")])] in
  let species := PDict [(KStr "id", PInt 25); (KStr "name", PStr "pikachu")] in
  let api' := serve [(pokemon_url "pikachu", creature);
                     ("https://pokeapi.co/api/v2/pokemon-species/25/",
                      species)] in
  let not_found :=
    error_name "Color not found in species data" (PStr "pikachu") in
  (fst (run api (Types "pikachu") []) = Ok body /\
   mixed_record (Types "pikachu") body) /\
  (fst (run api' (Color "pikachu") []) = Ok not_found /\
   mixed_record (Color "pikachu") not_found) /\
  ~ (forall api t tr,
        exists v, fst (run api t tr) = Ok v /\
                  (success_record t v \/ error_record v) /\
                  ~ mixed_record t v).
Proof.
  intros body api creature species api' not_found.
  assert (fst (run api (Types "pikachu") []) = Ok body) as R
      by (vm_compute; reflexivity).
  assert (mixed_record (Types "pikachu") body) as Mx.
  { split; [cbn; discriminate|].
    exists "name". split; [cbn; auto|cbn; discriminate]. }
  split; [split; [exact R|exact Mx]|]. split.
  - split; [vm_compute; reflexivity|].
    split; [cbn; discriminate|].
    exists "name". split; [cbn; auto|cbn; discriminate].
  - intros Claim.
    destruct (Claim api (Types "pikachu") []) as (v & Hv & _ & Hmix).
    rewrite R in Hv. injection Hv as <-. exact (Hmix Mx).
Qed.

(** C9, as the code has it.  An error record a handler returns has one
    of three shapes: [{error: message, details: text}], built by the
    fetch helper or by a handler's [except]; for color and shape,
    [{error: message, name: name}] with one of the three "not found"
    messages and no [details]; or an upstream body with a truthy
    [error] member, handed on as it came. *)
Theorem error_record_shapes
    (api : upstream) (t : tool) (tr : list string) (v : pyval) :
  fst (run api t tr) = Ok v ->
  field v "error" <> None ->
  (exists message details, v = error_details message details) \/
  (species_tool t = true /\
   exists message name,
     v = error_name message name /\ In message not_found_messages /\
     field v "details" = None) \/
  (served api v /\ exists e, field v "error" = Some e /\ truthy e = true).
Proof.
  intros H Herr. apply run_returned in H.
  destruct H as [v Hs|message details Hm|message name Ht Hin|d Hs He].
  - apply success_record_fields in Hs as [Hn _]. contradiction.
  - left. now exists message, details.
  - right. left. split; [exact Ht|]. now exists message, name.
  - right. right. split; [exact Hs|].
    unfold entry in He. cbn [field].
    destruct (lookup d "error") as [e|]; [|discriminate He].
    now exists e.
Qed.

(** The record for a creature the upstream does not know. *)
Lemma error_record_shapes_witness :
  let api : upstream :=
    fun _ _ => Response 404 "Not Found" (JsonFailure "not JSON") in
  let v := error_details "API request failed with status 404" "Not Found" in
  (exists message details, v = error_details message details) \/
  (species_tool (Shape "MissingNo") = true /\
   exists message name,
     v = error_name message name /\ In message not_found_messages /\
     field v "details" = None) \/
  (served api v /\ exists e, field v "error" = Some e /\ truthy e = true).
Proof.
  intros api v.
  apply (error_record_shapes api (Shape "MissingNo") [] v eq_refl).
  cbn. discriminate.
Defined.

(** C9, as stated, fails: the "not found" records have a [name] but no
    [details].  A species record without a color gives
    [{error: "Color not found in species data", name: ...}], and a
    creature record without a species reference gives
    [{error: "Species URL not found", name: ...}]. *)
Lemma not_found_records_lack_details :
  let creature :=
    PDict [(KStr "name", PStr "pikachu");
           (KStr "species",
            PDict [(KStr "url",
                    PStr "https://pokeapi.co/api/v2/pokemon-species/25/")])] in
  let species := PDict [(KStr "id", PInt 25); (KStr "name", PStr "pikachu")] in
  let api := serve [(pokemon_url "pikachu", creature);
                    ("https://pokeapi.co/api/v2/pokemon-species/25/",
                     species)] in
  let api' := serve [(pokemon_url "pikachu",
                      PDict [(KStr "name", PStr "pikachu")])] in
  let no_color :=
    error_name "Color not found in species data" (PStr "pikachu") in
  let no_species := error_name "Species URL not found" (PStr "pikachu") in
  (fst (run api (Color "pikachu") []) = Ok no_color /\
   field no_color "details" = None) /\
  (fst (run api' (Shape "pikachu") []) = Ok no_species /\
   field no_species "details" = None) /\
  ~ (forall api t tr v,
        fst (run api t tr) = Ok v -> field v "error" <> None ->
        exists message details,
          field v "error" = Some (PStr message) /\
          field v "details" = Some (PStr details)).
Proof.
  intros creature species api api' no_color no_species.
  assert (fst (run api (Color "pikachu") []) = Ok no_color) as R
      by (vm_compute; reflexivity).
  split; [split; [exact R|reflexivity]|]. split.
  - split; [vm_compute; reflexivity|reflexivity].
  - intros Claim.
    destruct (Claim api (Color "pikachu") [] no_color R)
      as (m & det & _ & Hdet); [cbn; discriminate|].
    discriminate Hdet.
Qed.

(* ================================================================= *)
(** ** Further properties of the handlers *)

Lemma first_url_spelled (t : tool) :
  first_url t
  = match t with
    | Details x | Types x | Color x | Shape x => pokemon_url x
    | Names l o => listing_url "pokemon" (arg_or l 2000) (arg_or o 0)
    | Item x => item_url x
    | Items l o => listing_url "item" (arg_or l 100) (arg_or o 0)
    end.
Proof. destruct t; reflexivity. Qed.

(** A handler on the error record of a failed first fetch. *)
Lemma run_of_failed_fetch (api : upstream) (t : tool) (tr tr1 : list string)
    (message details : string) :
  fetch_from_pokeapi api (first_endpoint t) tr
  = (Ok (error_details message details), tr1) ->
  truthy (PStr message) = true ->
  run api t tr = (Ok (error_details message details), tr1).
Proof.
  intros F Hm.
  destruct t; cbn [first_endpoint] in F;
    unfold run, get_pokemon_details, get_pokemon_types, get_pokemon_color,
      get_pokemon_shape, list_all_pokemon_names, get_item_details,
      list_all_items, get_species_data, mbind; cbv zeta;
    rewrite F; unfold lift, ret;
    repeat (change (get (error_details message details) "error")
              with (Ok (PStr message));
            cbv beta iota; rewrite Hm);
    reflexivity.
Qed.

(** When the first request does not produce a JSON body (an error
    status, a transport failure, any other failure, a body that is not
    JSON), every tool returns the error record of the fetch helper as it
    is and issues no further request. *)
Theorem failed_fetch_is_returned
    (api : upstream) (t : tool) (tr : list string) :
  (forall code text v,
      api tr (first_url t) = Response code text (JsonValue v) ->
      400 <= code <= 599) ->
  exists message details,
    message <> "" /\
    run api t tr
    = (Ok (error_details message details), app tr [first_url t]) /\
    fst (fetch_from_pokeapi api (first_endpoint t) tr)
    = Ok (error_details message details).
Proof.
  intros Hfail.
  assert (exists message details,
             truthy (PStr message) = true /\
             fetch_from_pokeapi api (first_endpoint t) tr
             = (Ok (error_details message details), app tr [first_url t]))
    as (message & details & Hm & F).
  { unfold fetch_from_pokeapi. cbv zeta. fold (first_url t).
    destruct (api tr (first_url t)) as [code text json|cause|cause] eqn:A.
    - destruct (raise_for_status code) eqn:C.
      + eexists _, _. split; [|reflexivity]. reflexivity.
      + destruct json as [v|cause].
        * apply raise_for_status_false in C.
          specialize (Hfail code text v eq_refl). lia.
        * eexists _, _. split; [|reflexivity]. reflexivity.
    - eexists _, _. split; [|reflexivity]. reflexivity.
    - eexists _, _. split; [|reflexivity]. reflexivity. }
  exists message, details. split; [|split].
  - intros ->. discriminate Hm.
  - now apply run_of_failed_fetch.
  - now rewrite F.
Qed.

(** A refused connection, for the shape of a creature. *)
Lemma failed_fetch_is_returned_witness :
  exists message details,
    message <> "" /\
    run (fun _ _ => RequestError "connection refused") (Shape "Machop") []
    = (Ok (error_details message details),
       app [] [first_url (Shape "Machop")]) /\
    fst (fetch_from_pokeapi (fun _ _ => RequestError "connection refused")
           (first_endpoint (Shape "Machop")) [])
    = Ok (error_details message details).
Proof.
  apply (failed_fetch_is_returned
           (fun _ _ => RequestError "connection refused") (Shape "Machop") []).
  intros code text v H. discriminate H.
Defined.

(** When the first request is answered with a JSON value that is not an
    object (a list, a string, a number, a boolean, null), every tool
    raises [AttributeError]: the test [data.get("error")] stands outside
    the [try].  No further request is issued. *)
Theorem body_that_is_no_object_raises
    (api : upstream) (t : tool) (tr : list string)
    (code : Z) (text : string) (v : pyval) :
  api tr (first_url t) = Response code text (JsonValue v) ->
  200 <= code <= 299 ->
  is_dict v = false ->
  run api t tr
  = (Raise (AttributeError (type_name v) "get"), app tr [first_url t]).
Proof.
  intros H Hc Hv. unfold first_url in H.
  pose proof (fetch_success api (first_endpoint t) tr code text v H Hc) as F.
  destruct t; cbn [first_endpoint] in F;
    unfold run, get_pokemon_details, get_pokemon_types, get_pokemon_color,
      get_pokemon_shape, list_all_pokemon_names, get_item_details,
      list_all_items, get_species_data, mbind; cbv zeta;
    rewrite F; unfold lift;
    destruct v; try discriminate Hv; reflexivity.
Qed.

(** An upstream that answers with a JSON list. *)
Lemma body_that_is_no_object_raises_witness :
  run (fun _ _ => Response 200 "[]" (JsonValue (PList [])))
      (Names None None) []
  = (Raise (AttributeError "list" "get"),
     ["https://pokeapi.co/api/v2/pokemon?limit=2000&offset=0"]).
Proof.
  refine (body_that_is_no_object_raises
            (fun _ _ => Response 200 "[]" (JsonValue (PList [])))
            (Names None None) [] 200 "[]" (PList []) eq_refl _ eq_refl).
  lia.
Defined.

Lemma guarded_trace (source : M pyval) (body : pyval -> exn pyval)
    (failure : string) (tr : list string) :
  snd (guarded source body failure tr) = snd (source tr).
Proof.
  unfold guarded, mbind, lift, ret.
  destruct (source tr) as [[v|e] tr']; [|reflexivity].
  destruct (get v "error") as [err|]; [|reflexivity].
  now destruct (truthy err).
Qed.

(** The resolver stops after its first request. *)
Ltac no_second_request :=
  exists []; split; [reflexivity|split; [cbn; lia|constructor]].

Lemma species_trace (api : upstream) (x : string) (tr : list string) :
  exists rest,
    snd (get_species_data api x tr) = app tr (pokemon_url x :: rest) /\
    (length rest <= 1)%nat /\
    Forall (fun url => String.prefix POKEAPI_BASE_URL url = true) rest.
Proof.
  unfold get_species_data, mbind, lift, ret. cbv zeta.
  pose proof (fetch_trace api ("/pokemon/" ++ lower x ++ "/") tr) as T1.
  destruct (fetch_from_pokeapi api ("/pokemon/" ++ lower x ++ "/") tr)
    as [[v|e] tr1]; cbn [snd] in T1; subst tr1; fold (pokemon_url x);
    [|no_second_request].
  destruct (get v "error") as [err|]; [|no_second_request].
  destruct (truthy err); [no_second_request|].
  destruct (species <- get_default v "species" (PDict []) ;;
            get species "url") as [u|]; [|no_second_request].
  destruct (negb (truthy u)).
  { destruct (get v "name"); no_second_request. }
  destruct (replace_method u POKEAPI_BASE_URL "") as [p|];
    [|no_second_request].
  pose proof (fetch_trace api p (app tr [pokemon_url x])) as T2.
  destruct (fetch_from_pokeapi api p (app tr [pokemon_url x]))
    as [[v2|e2] tr2]; cbn [snd] in *; subst tr2;
    exists [POKEAPI_BASE_URL ++ p];
    (split; [now rewrite <- app_assoc|]);
    (split; [cbn; lia|]);
    repeat constructor; apply prefix_append.
Qed.

(** Every tool issues its first request to the URL built from its
    arguments and at most one more; only the color and shape tools can
    issue the second.  The requests are appended to those made before,
    and each goes to a URL that starts with the base URL. *)
Theorem requests_issued (api : upstream) (t : tool) (tr : list string) :
  exists rest,
    snd (run api t tr) = app tr (first_url t :: rest) /\
    (length rest <= 1)%nat /\
    (species_tool t = false -> rest = []) /\
    Forall (fun url => String.prefix POKEAPI_BASE_URL url = true)
      (first_url t :: rest).
Proof.
  rewrite run_guarded, guarded_trace.
  assert (String.prefix POKEAPI_BASE_URL (first_url t) = true) as P
      by apply prefix_append.
  destruct t; cbn [source_of species_tool];
    try (exists []; split; [reflexivity|];
         split; [cbn; lia|]; split; [reflexivity|];
         now repeat constructor);
    match goal with
    | |- context [get_species_data api ?x tr] =>
        destruct (species_trace api x tr) as (rest & T & L & F)
    end;
    exists rest; (split; [exact T|]); (split; [exact L|]);
    (split; [discriminate|]); now constructor.
Qed.

Lemma type_names_of_list (ts names : list pyval) :
  map type_name_of ts = map Some names ->
  list_comp (fun t => ty <- subscript t "type" ;; subscript ty "name") ts
  = Ok names.
Proof.
  revert names.
  induction ts as [|t ts IH]; intros [|n names] H; try discriminate H.
  - reflexivity.
  - cbn [map] in H. injection H as Ht Hts.
    cbn [list_comp]. rewrite (IH names Hts).
    unfold type_name_of in Ht.
    destruct t as [| | | | |dt]; try discriminate Ht. cbn [field] in Ht.
    cbn [subscript].
    destruct (lookup dt "type") as [ty|]; [|discriminate Ht].
    destruct ty as [| | | | |dty]; try discriminate Ht. cbn [field] in Ht.
    cbn [bind subscript]. now rewrite Ht.
Qed.

Lemma list_comp_raise (f : pyval -> exn pyval) (good rest xs : list pyval)
    (bad : pyval) (e : pyexc) :
  list_comp f good = Ok xs -> f bad = Raise e ->
  list_comp f (app good (bad :: rest)) = Raise e.
Proof.
  revert xs. induction good as [|g good IH]; intros xs Hg Hb.
  - cbn. now rewrite Hb.
  - cbn [app list_comp] in *. destruct (f g) as [y|]; [|discriminate Hg].
    cbn [bind] in *.
    destruct (list_comp f good) as [ys|] eqn:L; [|discriminate Hg].
    now rewrite (IH ys eq_refl Hb).
Qed.

(** On a creature record whose [types] entries each have a
    [type.name], the types handler returns the record's [name] and [id]
    (null when absent) and the type names, one for each entry, in the
    upstream's order. *)
Theorem types_in_upstream_order
    (api : upstream) (pokemon_name_or_id : string) (tr : list string)
    (code : Z) (text : string) (d : pydict) (ts names : list pyval) :
  api tr (pokemon_url pokemon_name_or_id)
  = Response code text (JsonValue (PDict d)) ->
  200 <= code <= 299 ->
  truthy (entry d "error") = false ->
  get_default (PDict d) "types" (PList []) = Ok (PList ts) ->
  map type_name_of ts = map Some names ->
  fst (get_pokemon_types api pokemon_name_or_id tr)
  = Ok (PDict [(KStr "name", entry d "name"); (KStr "id", entry d "id");
               (KStr "types", PList names)]) /\
  length names = length ts.
Proof.
  intros Hapi Hc He Hts Hnames. split.
  - unfold get_pokemon_types, mbind.
    rewrite (fetch_success api _ tr code text _ Hapi Hc).
    unfold lift. rewrite get_entry, He. cbn [ret fst].
    unfold types_body, type_names. rewrite Hts. cbn [bind iterate].
    now rewrite (type_names_of_list ts names Hnames).
  - rewrite <- (length_map Some names), <- Hnames. apply length_map.
Qed.

(** Bulbasaur, grass and poison. *)
Lemma types_in_upstream_order_witness :
  let slot n := PDict [(KStr "slot", PInt 1);
                       (KStr "type", PDict [(KStr "name", PStr n)])] in
  let d := [(KStr "id", PInt 1); (KStr "name", PStr "bulbasaur");
            (KStr "types", PList [slot "grass"; slot "poison"])] in
  fst (get_pokemon_types (fun _ _ => Response 200 "" (JsonValue (PDict d)))
         "Bulbasaur" [])
  = Ok (PDict [(KStr "name", PStr "bulbasaur"); (KStr "id", PInt 1);
               (KStr "types", PList [PStr "grass"; PStr "poison"])]).
Proof.
  intros slot d.
  refine (proj1 (types_in_upstream_order
                   (fun _ _ => Response 200 "" (JsonValue (PDict d)))
                   "Bulbasaur" [] 200 "" d _ [PStr "grass"; PStr "poison"]
                   eq_refl _ eq_refl eq_refl eq_refl)).
  lia.
Defined.

(** A [types] entry without the key [type] makes both handlers that read
    the types fail inside their [try]: after entries that are well
    formed, the first such entry gives the record "Failed to process
    ... " whose details are the text of the [KeyError], the quoted key. *)
Theorem type_entry_without_type
    (api : upstream) (pokemon_name_or_id : string) (tr : list string)
    (code : Z) (text : string) (d bad : pydict)
    (good rest names : list pyval) :
  api tr (pokemon_url pokemon_name_or_id)
  = Response code text (JsonValue (PDict d)) ->
  200 <= code <= 299 ->
  truthy (entry d "error") = false ->
  lookup d "types" = Some (PList (app good (PDict bad :: rest))) ->
  map type_name_of good = map Some names ->
  lookup bad "type" = None ->
  fst (get_pokemon_types api pokemon_name_or_id tr)
  = Ok (error_details ("Failed to process " ++ Pokemon ++ " types")
          "'type'") /\
  fst (get_pokemon_details api pokemon_name_or_id tr)
  = Ok (error_details ("Failed to process " ++ Pokemon ++ " data")
          "'type'").
Proof.
  intros Hapi Hc He Hts Hgood Hbad.
  assert (type_names (PDict d) = Raise (KeyError "type")) as R.
  { unfold type_names. cbn [get_default]. rewrite Hts. cbn [bind iterate].
    rewrite (list_comp_raise _ good rest names (PDict bad) (KeyError "type"));
      [reflexivity|now apply type_names_of_list|].
    cbn [subscript]. now rewrite Hbad. }
  split.
  - unfold get_pokemon_types, mbind.
    rewrite (fetch_success api _ tr code text _ Hapi Hc).
    unfold lift. rewrite get_entry, He. cbn [ret fst].
    unfold types_body. now rewrite R.
  - unfold get_pokemon_details, mbind.
    rewrite (fetch_success api _ tr code text _ Hapi Hc).
    unfold lift. rewrite get_entry, He. cbn [ret fst].
    unfold details_body. now rewrite R.
Qed.

(** A second entry that has a slot but no type. *)
Lemma type_entry_without_type_witness :
  let d := [(KStr "types",
             PList [PDict [(KStr "type", PDict [(KStr "name", PStr "grass")])];
                    PDict [(KStr "slot", PInt 2)]])] in
  fst (get_pokemon_types (fun _ _ => Response 200 "" (JsonValue (PDict d)))
         "bulbasaur" [])
  = Ok (error_details ("Failed to process " ++ Pokemon ++ " types") "'type'").
Proof.
  intros d.
  refine (proj1 (type_entry_without_type
                   (fun _ _ => Response 200 "" (JsonValue (PDict d)))
                   "bulbasaur" [] 200 "" d [(KStr "slot", PInt 2)]
                   [PDict [(KStr "type", PDict [(KStr "name", PStr "grass")])]]
                   [] [PStr "grass"]
                   eq_refl _ eq_refl eq_refl eq_refl eq_refl)).
  lia.
Defined.

Lemma key_eqb_str (k : pykey) (n : string) :
  key_eqb k (KStr n) = true -> k = KStr n.
Proof.
  destruct k as [|[]|z|s]; cbn; try discriminate.
  intros H. apply String.eqb_eq in H. now subst.
Qed.

(** Looking up after [d[n] = b]. *)
Lemma lookup_dict_set (acc : pydict) (n k : string) (b : pyval) :
  lookup (dict_set acc (KStr n) b) k
  = if String.eqb n k then Some b else lookup acc k.
Proof.
  induction acc as [|[k' v'] acc IH]; cbn [dict_set lookup].
  - reflexivity.
  - destruct (key_eqb k' (KStr n)) eqn:E.
    + apply key_eqb_str in E. subst k'. cbn [lookup key_eqb].
      now destruct (String.eqb n k).
    + cbn [lookup]. rewrite IH.
      destruct (key_eqb k' (KStr k)) eqn:E'; [|reflexivity].
      apply key_eqb_str in E'. subst k'. cbn [key_eqb] in E.
      rewrite String.eqb_sym in E. now rewrite E.
Qed.

Lemma dict_comp_stats (ss : list pyval) (pairs : list (string * pyval))
    (acc : pydict) :
  map stat_pair ss = map Some pairs ->
  exists sd,
    dict_comp (fun s => st <- subscript s "stat" ;; subscript st "name")
      (fun s => subscript s "base_stat") ss acc = Ok sd /\
    forall k,
      lookup sd k
      = fold_left (fun a p => if String.eqb (fst p) k then Some (snd p) else a)
          pairs (lookup acc k).
Proof.
  revert pairs acc.
  induction ss as [|s ss IH]; intros [|[n b] pairs] acc H; try discriminate H.
  - exists acc. split; reflexivity.
  - cbn [map] in H. injection H as Hs Hss.
    unfold stat_pair in Hs.
    destruct s as [| | | | |ds]; try discriminate Hs. cbn [field] in Hs.
    destruct (lookup ds "stat") as [st|] eqn:Lst; [|discriminate Hs].
    destruct (lookup ds "base_stat") as [b'|] eqn:Lb; [|discriminate Hs].
    destruct st as [| | | | |dst]; try discriminate Hs. cbn [field] in Hs.
    destruct (lookup dst "name") as [[| | |n'| |]|] eqn:Ln;
      try discriminate Hs.
    injection Hs as -> ->.
    destruct (IH pairs (dict_set acc (KStr n) b) Hss) as (sd & R & L).
    exists sd. split.
    + cbn [dict_comp subscript]. rewrite Lst. cbn [bind subscript].
      rewrite Ln, Lb. cbn [bind to_key]. exact R.
    + intros k. rewrite L, lookup_dict_set. reflexivity.
Qed.

(** The stats of a creature are a dict from stat name to base value:
    when every element of [stats] has a string [stat.name] and a
    [base_stat], looking a name up in the result gives the base value of
    the last element with that name, and nothing for a name no element
    has. *)
Theorem stats_by_name
    (data : pyval) (ss : list pyval) (pairs : list (string * pyval)) :
  get_default data "stats" (PList []) = Ok (PList ss) ->
  map stat_pair ss = map Some pairs ->
  exists sd,
    base_stats data = Ok (PDict sd) /\
    forall k, lookup sd k = last_value pairs k.
Proof.
  intros Hss Hpairs.
  destruct (dict_comp_stats ss pairs [] Hpairs) as (sd & R & L).
  exists sd. split.
  - unfold base_stats. rewrite Hss. cbn [bind iterate]. now rewrite R.
  - intros k. now rewrite L.
Qed.

(** Three stats, one of them given twice. *)
Lemma stats_by_name_witness :
  let stat n b := PDict [(KStr "base_stat", PInt b);
                         (KStr "stat", PDict [(KStr "name", PStr n)])] in
  let data := PDict [(KStr "stats",
                      PList [stat "hp" 35; stat "attack" 55; stat "hp" 40])] in
  exists sd,
    base_stats data = Ok (PDict sd) /\
    forall k,
      lookup sd k
      = last_value [("hp", PInt 35); ("attack", PInt 55); ("hp", PInt 40)] k.
Proof.
  intros stat data.
  exact (stats_by_name data _ [("hp", PInt 35); ("attack", PInt 55);
                               ("hp", PInt 40)] eq_refl eq_refl).
Defined.

(** The item listing: on a page whose [results] each have a [name], the
    handler returns the page's [count] (null when absent) and the
    names in the upstream's order, for every [limit] and [offset]; a
    result without a [name], after results that have one, gives the
    record "Failed to process item list" with the quoted key as
    details. *)
Theorem item_listing
    (api : upstream) (limit offset : option Z) (tr : list string)
    (code : Z) (text : string) (d : pydict) :
  api tr (listing_url "item" (arg_or limit 100) (arg_or offset 0))
  = Response code text (JsonValue (PDict d)) ->
  200 <= code <= 299 ->
  truthy (entry d "error") = false ->
  (forall rs names,
      get_default (PDict d) "results" (PList []) = Ok (PList rs) ->
      map (fun r => field r "name") rs = map Some names ->
      fst (list_all_items api limit offset tr)
      = Ok (listing_record "item_names" (entry d "count") names)) /\
  (forall good bad rest names,
      lookup d "results" = Some (PList (app good (PDict bad :: rest))) ->
      map (fun r => field r "name") good = map Some names ->
      lookup bad "name" = None ->
      fst (list_all_items api limit offset tr)
      = Ok (error_details "Failed to process item list" "'name'")).
Proof.
  intros Hapi Hc He.
  assert (fst (list_all_items api limit offset tr)
          = Ok (try_except (listing_body "item_names" (PDict d))
                  "Failed to process item list")) as Hrun.
  { unfold list_all_items, mbind. cbv zeta.
    rewrite (fetch_success api
               ("/item?limit=" ++ str_of_int (arg_or limit 100) ++ "&offset="
                  ++ str_of_int (arg_or offset 0)) tr code text (PDict d)
               Hapi Hc).
    unfold lift. now rewrite get_entry, He. }
  rewrite Hrun. unfold listing_body, result_names. split.
  - intros rs names Hrs Hnames. rewrite Hrs. cbn [bind iterate].
    now rewrite (names_of_results rs names Hnames).
  - intros good bad rest names Hrs Hgood Hbad.
    cbn [get_default]. rewrite Hrs. cbn [bind iterate].
    rewrite (list_comp_raise _ good rest names (PDict bad) (KeyError "name"));
      [reflexivity|now apply names_of_results|].
    cbn [subscript]. now rewrite Hbad.
Qed.

(** The second page of three items. *)
Lemma item_listing_witness :
  let d := [(KStr "count", PInt 2180);
            (KStr "results",
             PList [PDict [(KStr "name", PStr "potion")];
                    PDict [(KStr "name", PStr "antidote")]])] in
  fst (list_all_items (fun _ _ => Response 200 "" (JsonValue (PDict d)))
         (Some 2) (Some 2) [])
  = Ok (listing_record "item_names" (PInt 2180)
          [PStr "potion"; PStr "antidote"]).
Proof.
  intros d.
  refine (proj1 (item_listing
                   (fun _ _ => Response 200 "" (JsonValue (PDict d)))
                   (Some 2) (Some 2) [] 200 "" d eq_refl _ eq_refl)
            _ [PStr "potion"; PStr "antidote"] eq_refl eq_refl).
  lia.
Defined.

Lemma attribute_body_record (attribute message x : string) (d : pydict) :
  dict_or_absent d attribute = true ->
  attribute_body attribute message (PDict d) x
  = Ok (if truthy (nested d attribute "name")
        then attribute_record attribute x d
        else error_name message (entry d "name")).
Proof.
  intros H. unfold attribute_body.
  destruct (get_default_nested d attribute H) as (a & -> & N).
  cbn [bind]. rewrite N. cbn [bind].
  now destruct (truthy (nested d attribute "name")).
Qed.

(** The color and shape handlers on a species record: when [color]
    (or [shape]) has a truthy [name], the result is the record of the
    species' [name] (the identifier as given when the species has none),
    its [id] (null when absent) and that name; when [color] is absent or
    has no truthy [name], it is the record "Color not found in species
    data" with the species' [name]. *)
Theorem attribute_of_species
    (api : upstream) (pokemon_name_or_id : string) (tr tr' : list string)
    (d : pydict) :
  get_species_data api pokemon_name_or_id tr = (Ok (PDict d), tr') ->
  truthy (entry d "error") = false ->
  (dict_or_absent d "color" = true ->
   get_pokemon_color api pokemon_name_or_id tr
   = (Ok (if truthy (nested d "color" "name")
          then attribute_record "color" pokemon_name_or_id d
          else error_name "Color not found in species data" (entry d "name")),
      tr')) /\
  (dict_or_absent d "shape" = true ->
   get_pokemon_shape api pokemon_name_or_id tr
   = (Ok (if truthy (nested d "shape" "name")
          then attribute_record "shape" pokemon_name_or_id d
          else error_name "Shape not found in species data" (entry d "name")),
      tr')).
Proof.
  intros Hs He. split; intros Hd.
  - unfold get_pokemon_color, mbind. rewrite Hs.
    unfold lift. rewrite get_entry, He. cbn [ret].
    now rewrite (attribute_body_record "color" _ _ d Hd).
  - unfold get_pokemon_shape, mbind. rewrite Hs.
    unfold lift. rewrite get_entry, He. cbn [ret].
    now rewrite (attribute_body_record "shape" _ _ d Hd).
Qed.

(** Charmander is red. *)
Lemma attribute_of_species_witness :
  let species := [(KStr "id", PInt 4); (KStr "name", PStr "charmander");
                  (KStr "color", PDict [(KStr "name", PStr "red")])] in
  let creature :=
    PDict [(KStr "species",
            PDict [(KStr "url",
                    PStr "https://pokeapi.co/api/v2/pokemon-species/4/")])] in
  let api := serve [(pokemon_url "charmander", creature);
                    ("https://pokeapi.co/api/v2/pokemon-species/4/",
                     PDict species)] in
  get_pokemon_color api "Charmander" []
  = (Ok (PDict [(KStr "name", PStr "charmander"); (KStr "id", PInt 4);
                (KStr "color", PStr "red")]),
     [pokemon_url "charmander";
      "https://pokeapi.co/api/v2/pokemon-species/4/"]).
Proof.
  intros species creature api.
  refine (proj1 (attribute_of_species api "Charmander" [] _ species _ eq_refl)
            eq_refl).
  vm_compute. reflexivity.
Defined.

Lemma attribute_handlers_raise (api : upstream) (x : string)
    (tr tr' : list string) (e : pyexc) :
  get_species_data api x tr = (Raise e, tr') ->
  get_pokemon_color api x tr = (Raise e, tr') /\
  get_pokemon_shape api x tr = (Raise e, tr').
Proof.
  intros H. unfold get_pokemon_color, get_pokemon_shape, mbind.
  now rewrite H.
Qed.

Lemma attribute_handlers_not_found (api : upstream) (x : string)
    (tr tr' : list string) (name : pyval) :
  get_species_data api x tr
  = (Ok (error_name "Species URL not found" name), tr') ->
  get_pokemon_color api x tr
  = (Ok (error_name "Species URL not found" name), tr') /\
  get_pokemon_shape api x tr
  = (Ok (error_name "Species URL not found" name), tr').
Proof.
  intros H. unfold get_pokemon_color, get_pokemon_shape, mbind.
  now rewrite H.
Qed.

(** The resolver after a first fetch that gave the record [d]. *)
Ltac species_on_record Hapi Hc He :=
  unfold get_species_data, mbind; cbv zeta;
  rewrite (fetch_success _ _ _ _ _ _ Hapi Hc);
  unfold lift; rewrite get_entry, He;
  cbn [get_default bind].

(** A species reference that cannot be read makes the resolver, and
    with it the color and shape handlers, raise [AttributeError] after
    the first request: a [species] that is not an object has no [get],
    and a truthy [url] that is not a string has no [replace].  Neither
    is inside a [try]. *)
Theorem species_reference_unreadable
    (api : upstream) (pokemon_name_or_id : string) (tr : list string)
    (code : Z) (text : string) (d : pydict) :
  api tr (pokemon_url pokemon_name_or_id)
  = Response code text (JsonValue (PDict d)) ->
  200 <= code <= 299 ->
  truthy (entry d "error") = false ->
  let tr1 := app tr [pokemon_url pokemon_name_or_id] in
  let raises e :=
    get_species_data api pokemon_name_or_id tr = (Raise e, tr1) /\
    get_pokemon_color api pokemon_name_or_id tr = (Raise e, tr1) /\
    get_pokemon_shape api pokemon_name_or_id tr = (Raise e, tr1) in
  (forall s,
      lookup d "species" = Some s -> is_dict s = false ->
      raises (AttributeError (type_name s) "get")) /\
  (forall species u,
      lookup d "species" = Some (PDict species) ->
      lookup species "url" = Some u ->
      truthy u = true -> (forall s, u <> PStr s) ->
      raises (AttributeError (type_name u) "replace")).
Proof.
  intros Hapi Hc He tr1 raises. subst raises. split.
  - intros s Hs Hnd.
    assert (get_species_data api pokemon_name_or_id tr
            = (Raise (AttributeError (type_name s) "get"), tr1)) as R.
    { species_on_record Hapi Hc He. rewrite Hs.
      destruct s; try discriminate Hnd; reflexivity. }
    split; [exact R|]. now apply attribute_handlers_raise.
  - intros species u Hs Hu Tu Hns.
    assert (get_species_data api pokemon_name_or_id tr
            = (Raise (AttributeError (type_name u) "replace"), tr1)) as R.
    { species_on_record Hapi Hc He. rewrite Hs. cbn [get get_default].
      rewrite Hu, Tu. cbn [negb].
      destruct u as [| | |s| |]; try reflexivity.
      now destruct (Hns s). }
    split; [exact R|]. now apply attribute_handlers_raise.
Qed.

(** A creature record whose [species] is null. *)
Lemma species_reference_unreadable_witness :
  let d := [(KStr "name", PStr "pikachu"); (KStr "species", PNone)] in
  get_pokemon_color (fun _ _ => Response 200 "" (JsonValue (PDict d)))
    "pikachu" []
  = (Raise (AttributeError "NoneType" "get"), [pokemon_url "pikachu"]).
Proof.
  intros d.
  refine (proj1 (proj2 (proj1 (species_reference_unreadable
                   (fun _ _ => Response 200 "" (JsonValue (PDict d)))
                   "pikachu" [] 200 "" d eq_refl _ eq_refl)
            PNone eq_refl eq_refl))).
  lia.
Defined.

Lemma replace_absent (old new s : string) :
  old <> "" -> contains old s = false -> replace old new s = s.
Proof.
  intros Hne Hs. destruct old; [contradiction|].
  unfold replace. now apply replace_from_absent.
Qed.

(** A species URL in which the base URL does not occur is not changed by
    the stripping, so the second request goes to the base URL followed
    by the whole species URL, and its result is returned. *)
Theorem species_url_elsewhere
    (api : upstream) (pokemon_name_or_id : string) (tr : list string)
    (code : Z) (text : string) (d species : pydict) (u : string) :
  api tr (pokemon_url pokemon_name_or_id)
  = Response code text (JsonValue (PDict d)) ->
  200 <= code <= 299 ->
  truthy (entry d "error") = false ->
  lookup d "species" = Some (PDict species) ->
  lookup species "url" = Some (PStr u) ->
  u <> "" ->
  contains POKEAPI_BASE_URL u = false ->
  get_species_data api pokemon_name_or_id tr
  = fetch_from_pokeapi api u (app tr [pokemon_url pokemon_name_or_id]) /\
  snd (get_species_data api pokemon_name_or_id tr)
  = app tr [pokemon_url pokemon_name_or_id; POKEAPI_BASE_URL ++ u].
Proof.
  intros Hapi Hc He Hs Hu Hne Hc'.
  assert (get_species_data api pokemon_name_or_id tr
          = fetch_from_pokeapi api u (app tr [pokemon_url pokemon_name_or_id]))
    as R.
  { species_on_record Hapi Hc He. rewrite Hs. cbn [get get_default].
    rewrite Hu. cbn [truthy].
    destruct (String.eqb_spec u "") as [->|_]; [contradiction|].
    cbn [negb replace_method].
    rewrite replace_absent by (discriminate || assumption).
    fold (pokemon_url pokemon_name_or_id).
    now destruct (fetch_from_pokeapi api u
                    (app tr [pokemon_url pokemon_name_or_id])) as [[v|e] t]. }
  split; [exact R|]. rewrite R, fetch_trace. now rewrite <- app_assoc.
Qed.

(** A species kept on another host. *)
Lemma species_url_elsewhere_witness :
  let d := [(KStr "species",
             PDict [(KStr "url", PStr "https://example.org/species/25/")])] in
  snd (get_species_data (fun _ _ => Response 200 "" (JsonValue (PDict d)))
         "pikachu" [])
  = [pokemon_url "pikachu";
     "https://pokeapi.co/api/v2https://example.org/species/25/"].
Proof.
  intros d.
  refine (proj2 (species_url_elsewhere
                   (fun _ _ => Response 200 "" (JsonValue (PDict d)))
                   "pikachu" [] 200 "" d _ "https://example.org/species/25/"
                   eq_refl _ eq_refl eq_refl eq_refl _ eq_refl)).
  - lia.
  - discriminate.
Defined.

(** A species [url] that is there but falsy (null, the empty string,
    [false], 0, an empty list or object) counts as missing: the
    resolver, and with it the color and shape handlers, return the
    record "Species URL not found" with the creature's [name], after
    the first request only. *)
Theorem species_url_falsy
    (api : upstream) (pokemon_name_or_id : string) (tr : list string)
    (code : Z) (text : string) (d species : pydict) (u : pyval) :
  api tr (pokemon_url pokemon_name_or_id)
  = Response code text (JsonValue (PDict d)) ->
  200 <= code <= 299 ->
  truthy (entry d "error") = false ->
  lookup d "species" = Some (PDict species) ->
  lookup species "url" = Some u ->
  truthy u = false ->
  let not_found :=
    (Ok (error_name "Species URL not found" (entry d "name")),
     app tr [pokemon_url pokemon_name_or_id]) in
  get_species_data api pokemon_name_or_id tr = not_found /\
  get_pokemon_color api pokemon_name_or_id tr = not_found /\
  get_pokemon_shape api pokemon_name_or_id tr = not_found.
Proof.
  intros Hapi Hc He Hs Hu Tu not_found. subst not_found.
  assert (get_species_data api pokemon_name_or_id tr
          = (Ok (error_name "Species URL not found" (entry d "name")),
             app tr [pokemon_url pokemon_name_or_id])) as R.
  { species_on_record Hapi Hc He. rewrite Hs. cbn [get get_default].
    rewrite Hu, Tu. reflexivity. }
  split; [exact R|]. now apply attribute_handlers_not_found.
Qed.

(** A species whose URL is the empty string. *)
Lemma species_url_falsy_witness :
  let d := [(KStr "name", PStr "pikachu");
            (KStr "species", PDict [(KStr "url", PStr "")])] in
  get_pokemon_shape (fun _ _ => Response 200 "" (JsonValue (PDict d)))
    "pikachu" []
  = (Ok (error_name "Species URL not found" (PStr "pikachu")),
     [pokemon_url "pikachu"]).
Proof.
  intros d.
  refine (proj2 (proj2 (species_url_falsy
                   (fun _ _ => Response 200 "" (JsonValue (PDict d)))
                   "pikachu" [] 200 "" d _ (PStr "")
                   eq_refl _ eq_refl eq_refl eq_refl eq_refl))).
  lia.
Defined.

Lemma lower_char_not_upper (c : ascii) : is_upper (lower_char c) = false.
Proof. destruct c as [[] [] [] [] [] [] [] []]; reflexivity. Qed.

Lemma hyphenate_lower_char (c : ascii) :
  is_upper (hyphenate (lower_char c)) = false /\
  hyphenate (lower_char c) <> " "%char.
Proof.
  destruct c as [[] [] [] [] [] [] [] []];
    (split; [reflexivity|discriminate]).
Qed.

(** In the path segment built from an identifier (over U+0000..U+00FF)
    no letter A-Z is left, and in the one built for an item no space is
    left either. *)
Theorem path_segment_normalized (x : string) :
  (forall c, In c (list_ascii_of_string (lower x)) -> is_upper c = false) /\
  (forall c, In c (list_ascii_of_string (normalize_item x)) ->
             is_upper c = false /\ c <> " "%char).
Proof.
  induction x as [|a x (U1 & U2)].
  - split; intros c [].
  - rewrite normalize_item_cons.
    cbn [lower list_ascii_of_string].
    split.
    + intros c [<-|Hin]; [apply lower_char_not_upper|now apply U1].
    + intros c [<-|Hin]; [apply hyphenate_lower_char|now apply U2].
Qed.

(** The details of a creature, put together: on a record whose [types]
    entries each have a [type.name] and whose [stats] elements each have
    a string [stat.name] and a [base_stat], the handler returns [id],
    [name], [height] and [weight] as they are in the record (null when
    absent), the type names in order, the stats by name, and the
    sprite: the entry at [sprites.other.official-artwork.front_default]
    when it is truthy, else the entry at [sprites.front_default]. *)
Theorem details_of_creature
    (api : upstream) (pokemon_name_or_id : string) (tr : list string)
    (code : Z) (text : string) (d : pydict)
    (ts names ss : list pyval) (pairs : list (string * pyval))
    (official chosen : pyval) :
  api tr (pokemon_url pokemon_name_or_id)
  = Response code text (JsonValue (PDict d)) ->
  200 <= code <= 299 ->
  truthy (entry d "error") = false ->
  get_default (PDict d) "types" (PList []) = Ok (PList ts) ->
  map type_name_of ts = map Some names ->
  get_default (PDict d) "stats" (PList []) = Ok (PList ss) ->
  map stat_pair ss = map Some pairs ->
  entry_at (PDict d) official_artwork_path = Some official ->
  (if truthy official then Some official
   else entry_at (PDict d) front_default_path) = Some chosen ->
  exists sd,
    fst (get_pokemon_details api pokemon_name_or_id tr)
    = Ok (details_record d (PList names) (PDict sd) chosen) /\
    forall k, lookup sd k = last_value pairs k.
Proof.
  intros Hapi Hc He Hts Hnames Hss Hpairs Ho Hch.
  destruct (dict_comp_stats ss pairs [] Hpairs) as (sd & R & L).
  exists sd. split; [|intros k; now rewrite L].
  apply (details_of_record api _ tr code text d _ _ official); auto.
  - unfold type_names. rewrite Hts. cbn [bind iterate].
    now rewrite (type_names_of_list ts names Hnames).
  - unfold base_stats. rewrite Hss. cbn [bind iterate]. now rewrite R.
  - now apply official_artwork_at.
  - destruct (truthy official); cbn [negb];
      [now injection Hch as <-|now apply front_default_at].
Qed.

(** Pikachu with one type, two stats and an official artwork. *)
Lemma details_of_creature_witness :
  let d :=
    [(KStr "id", PInt 25); (KStr "name", PStr "pikachu");
     (KStr "height", PInt 4); (KStr "weight", PInt 60);
     (KStr "types",
      PList [PDict [(KStr "type", PDict [(KStr "name", PStr "electric")])]]);
     (KStr "stats",
      PList [PDict [(KStr "base_stat", PInt 35);
                    (KStr "stat", PDict [(KStr "name", PStr "hp")])];
             PDict [(KStr "base_stat", PInt 55);
                    (KStr "stat", PDict [(KStr "name", PStr "attack")])]]);
     (KStr "sprites",
      PDict [(KStr "other",
              PDict [(KStr "official-artwork",
                      PDict [(KStr "front_default",
                              PStr "http://x/25.png")])])])] in
  exists sd,
    fst (get_pokemon_details (fun _ _ => Response 200 "" (JsonValue (PDict d)))
           "Pikachu" [])
    = Ok (details_record d (PList [PStr "electric"]) (PDict sd)
            (PStr "http://x/25.png")) /\
    forall k,
      lookup sd k = last_value [("hp", PInt 35); ("attack", PInt 55)] k.
Proof.
  intros d.
  refine (details_of_creature
            (fun _ _ => Response 200 "" (JsonValue (PDict d)))
            "Pikachu" [] 200 "" d _ [PStr "electric"] _
            [("hp", PInt 35); ("attack", PInt 55)]
            (PStr "http://x/25.png") (PStr "http://x/25.png")
            eq_refl _ eq_refl eq_refl eq_refl eq_refl eq_refl eq_refl eq_refl).
  lia.
Defined.

(** A [sprites] entry that is there but is no object (null, say) makes
    the details handler and the item handler fail inside their [try],
    once what is read before it has been read: the result is the record
    "Failed to process ... data" whose details are the text of the
    [AttributeError]. *)
Theorem sprites_that_are_no_object
    (api : upstream) (x : string) (tr : list string)
    (code : Z) (text : string) (d : pydict) (s : pyval) :
  200 <= code <= 299 ->
  truthy (entry d "error") = false ->
  lookup d "sprites" = Some s ->
  is_dict s = false ->
  let details := str_of_exc (AttributeError (type_name s) "get") in
  (forall types stats,
      api tr (pokemon_url x) = Response code text (JsonValue (PDict d)) ->
      type_names (PDict d) = Ok types ->
      base_stats (PDict d) = Ok stats ->
      fst (get_pokemon_details api x tr)
      = Ok (error_details ("Failed to process " ++ Pokemon ++ " data")
              details)) /\
  (forall entries,
      api tr (item_url x) = Response code text (JsonValue (PDict d)) ->
      get_default (PDict d) "effect_entries" (PList []) = Ok (PList entries) ->
      forallb entry_ok entries = true ->
      fst (get_item_details api x tr)
      = Ok (error_details "Failed to process item data" details)).
Proof.
  intros Hc He Hs Hnd details. subst details. split.
  - intros types stats Hapi Ht Hst.
    unfold get_pokemon_details, mbind.
    rewrite (fetch_success api _ tr code text _ Hapi Hc).
    unfold lift. rewrite get_entry, He. cbn [ret fst].
    unfold details_body. rewrite Ht, Hst. cbn [bind].
    unfold official_artwork. cbn [get_default]. rewrite Hs. cbn [bind].
    destruct s; try discriminate Hnd; reflexivity.
  - intros entries Hapi Hent Hok.
    unfold get_item_details, mbind.
    rewrite (fetch_success api _ tr code text _ Hapi Hc).
    unfold lift. rewrite get_entry, He. cbn [ret fst].
    unfold item_body. rewrite Hent. cbn [bind iterate].
    rewrite (effect_loop_english entries Hok). cbn [bind get_default].
    rewrite Hs. cbn [bind].
    destruct s; try discriminate Hnd; reflexivity.
Qed.

(** An item whose [sprites] is null. *)
Lemma sprites_that_are_no_object_witness :
  let d := [(KStr "name", PStr "potion"); (KStr "sprites", PNone)] in
  fst (get_item_details (fun _ _ => Response 200 "" (JsonValue (PDict d)))
         "Potion" [])
  = Ok (error_details "Failed to process item data"
          "'NoneType' object has no attribute 'get'").
Proof.
  intros d.
  refine (proj2 (sprites_that_are_no_object
                   (fun _ _ => Response 200 "" (JsonValue (PDict d)))
                   "Potion" [] 200 "" d PNone _ eq_refl eq_refl eq_refl)
            [] eq_refl eq_refl eq_refl).
  lia.
Defined.

Lemma append_cancel (a x y : string) : a ++ x = a ++ y -> x = y.
Proof.
  induction a as [|c a IH]; cbn; intros H; [exact H|].
  injection H as H. now apply IH.
Qed.

Lemma append_amp_inj (a a' b b' : string) :
  ~ In "&"%char (list_ascii_of_string a) ->
  ~ In "&"%char (list_ascii_of_string a') ->
  a ++ String "&" b = a' ++ String "&" b' ->
  a = a' /\ b = b'.
Proof.
  revert a'. induction a as [|c a IH]; intros [|c' a'] Ha Ha' H; cbn in *.
  - now injection H as <-.
  - injection H as <- _. destruct Ha'. now left.
  - injection H as -> _. destruct Ha. now left.
  - injection H as <- H.
    destruct (IH a') as [<- <-]; auto.
Qed.

Lemma digits_without_amp (d : Decimal.uint) :
  ~ In "&"%char (list_ascii_of_string (NilEmpty.string_of_uint d)).
Proof.
  induction d; cbn; intros H; try (destruct H as [H|H]; [discriminate H|]);
    auto.
Qed.

Lemma str_of_int_without_amp (z : Z) :
  ~ In "&"%char (list_ascii_of_string (str_of_int z)).
Proof.
  unfold str_of_int, NilZero.string_of_int, NilZero.string_of_uint.
  destruct (Z.to_int z) as [d|d].
  - destruct d; try apply digits_without_amp.
    cbn. intros [H|[]]. discriminate H.
  - cbn [list_ascii_of_string]. intros [H|H]; [discriminate H|].
    revert H. destruct d; try apply digits_without_amp.
    cbn. intros [H|[]]. discriminate H.
Qed.

(** The query of a listing carries [limit] and [offset] unchanged and
    without ambiguity: two listing URLs for the same resource are equal
    only when both numbers are, and each number can be read back from
    its numeral. *)
Theorem listing_query_determines_arguments
    (resource : string) (limit offset limit' offset' : Z) :
  listing_url resource limit offset = listing_url resource limit' offset' ->
  limit = limit' /\ offset = offset'.
Proof.
  unfold listing_url. intros H.
  do 4 apply append_cancel in H.
  change ("&offset=" ++ str_of_int offset)
    with (String "&" ("offset=" ++ str_of_int offset)) in H.
  change ("&offset=" ++ str_of_int offset')
    with (String "&" ("offset=" ++ str_of_int offset')) in H.
  apply append_amp_inj in H; try apply str_of_int_without_amp.
  destruct H as [Hl Ho]. apply append_cancel in Ho.
  pose proof (int_of_str_of_int limit) as L.
  pose proof (int_of_str_of_int offset) as O.
  rewrite Hl, int_of_str_of_int in L. rewrite Ho, int_of_str_of_int in O.
  split; congruence.
Qed.

Lemma listing_query_determines_arguments_witness :
  arg_or None 2000 = 2000 /\ arg_or (Some 0) 7 = 0.
Proof.
  apply (listing_query_determines_arguments "pokemon"
           (arg_or None 2000) (arg_or (Some 0) 7) 2000 0).
  reflexivity.
Defined.
